(** * A shallow embedding of the e-commerce backend (main.py, schemas.py)

    The endpoints of [main.py] are embedded as computations of a small
    state-and-exception monad over the process state (the environment and
    the document store); the Pydantic classes of [schemas.py] are records
    with a validation function each. *)

From Stdlib Require Import ZArith String Ascii List.
From Stdlib Require Import Floats.PrimFloat Floats.SpecFloat Floats.FloatOps.
From stdpp Require Import base option gmap strings list.

Set Warnings "-register-all,-inexact-float,-clear-no-such-hyp".
Local Open Scope string_scope.
Local Open Scope list_scope.

(** ** Python values *)

(** The values that travel through the endpoints: decoded JSON bodies and
    stored documents.  A [dict] with string keys is a finite map. *)
Inductive value : Type :=
| VNone
| VBool (b : bool)
| VInt (z : Z)
| VFloat (f : float)
| VStr (s : string)
| VObjectId (oid : list N)
| VList (l : list value)
| VDict (d : gmap string value).

Abbreviation document := (gmap string value).

(** [d.get(k)]: the value under [k], [None] when the key is absent. *)
Definition dict_get (d : document) (k : string) : value :=
  default VNone (d !! k).

(** [{k: d.get(k) for k in keys}] *)
Definition project (d : document) (keys : list string) : document :=
  foldl (λ acc k, <[k := dict_get d k]> acc) ∅ keys.

(** ** Exceptions and the endpoint monad *)

Inductive loc_item := LField (name : string) | LIndex (i : nat).

Inductive error_type :=
| missing
| type_error
| literal_error
| greater_than_equal.

(** One entry per offending field: where, and what was wrong. *)
Definition errors := list (list loc_item * error_type).

(** The exceptions the endpoints raise or let through.  All of them derive
    from Python's [Exception]. *)
Inductive exn :=
| HTTPException (status_code : Z) (detail : string)
| RequestValidationError (errs : errors)
| ValidationError (errs : errors)
| InvalidId
| Exception (msg : string).

(** The status line the framework answers an exception with, where the
    exception alone decides it: the code of an [HTTPException], and 500 for
    an exception that no handler catches.  A [RequestValidationError] has
    no entry: its handler answers 422 with a body that echoes the offending
    input, and fails, which is answered 500, when that input holds NaN or
    Infinity. *)
Definition http_status (e : exn) : option Z :=
  match e with
  | HTTPException c _ => Some c
  | RequestValidationError _ => None
  | _ => Some 500%Z
  end.

Record Database := {
  collections : gmap string (list document);
  next_oid : N
}.

(** The process state: [os.environ] and the module-level [db] handle, which
    is [None] when no connection was established. *)
Record World := {
  environ : gmap string string;
  db : option Database
}.

Inductive result (A : Type) :=
| Ok (a : A)
| Raise (e : exn).
Arguments Ok {A} a.
Arguments Raise {A} e.

Definition M (A : Type) : Type := World → result A * World.

Definition ret {A} (a : A) : M A := λ w, (Ok a, w).

Definition raise {A} (e : exn) : M A := λ w, (Raise e, w).

Definition bind {A B} (m : M A) (k : A → M B) : M B :=
  λ w, match m w with
       | (Ok a, w') => k a w'
       | (Raise e, w') => (Raise e, w')
       end.

(** [try: m except Exception: h]; what [m] wrote before raising stays. *)
Definition try_except {A} (m : M A) (h : exn → M A) : M A :=
  λ w, match m w with
       | (Ok a, w') => (Ok a, w')
       | (Raise e, w') => h e w'
       end.

Notation "'let!' x ':=' m 'in' k" := (bind m (λ x, k))
  (at level 10, x pattern, m at level 100, k at level 200).
Notation "m ';;' k" := (bind m (λ _, k))
  (at level 100, k at level 200, right associativity).

(** [for x in xs: ys.append(f(x))] *)
Fixpoint for_each {A B} (f : A → M B) (xs : list A) : M (list B) :=
  match xs with
  | [] => ret []
  | x :: xs' =>
      let! y := f x in
      let! ys := for_each f xs' in
      ret (y :: ys)
  end.

(** [os.getenv(key, default)] *)
Definition os_getenv (key dflt : string) : M string :=
  λ w, (Ok (default dflt (environ w !! key)), w).

(** ** Admin auth (main.py, lines 75-78) *)

Definition verify_admin (password : string) : M unit :=
  let! admin_pw := os_getenv "ADMIN_PASSWORD" "admin123" in
  if decide (password ≠ admin_pw)
  then raise (HTTPException 401 "Invalid admin password")
  else ret tt.

(** The secret the process is configured with: [ADMIN_PASSWORD], and the
    fixed fallback when the variable is unset. *)
Definition configured_secret (w : World) : string :=
  match environ w !! "ADMIN_PASSWORD" with
  | Some s => s
  | None => "admin123"
  end.

(** ** Field validation (pydantic) *)

(** What the validation library does with an input whose Python type is not
    the field's own (a number offered to a [str] field, a string to a
    [float] field, ...) depends on its conversion table; the table is a
    parameter.  [None] is never converted, and is not passed to it. *)
Class LaxMode := {
  lax_str : value → option string;
  lax_int : value → option Z;
  lax_float : value → option float;
  lax_bool : value → option bool
}.

(** The table that converts nothing. *)
Definition strict : LaxMode :=
  {| lax_str := λ _, None; lax_int := λ _, None;
     lax_float := λ _, None; lax_bool := λ _, None |}.

Definition validator (A : Type) : Type := value → errors + A.

Definition fail {A} (e : error_type) : errors + A := inl [([], e)].

Definition of_lax {A} (o : option A) : errors + A :=
  match o with
  | Some a => inr a
  | None => fail type_error
  end.

Definition errs_of {A} (r : errors + A) : errors :=
  match r with
  | inl es => es
  | inr _ => []
  end.

Definition at_loc {A} (i : loc_item) (r : errors + A) : errors + A :=
  match r with
  | inl es => inl (prod_map (cons i) id <$> es)
  | inr a => inr a
  end.

(** [float(z)] for a Python int: the nearest double, an error past the
    largest one. *)
Definition float_of_int (z : Z) : option float :=
  let f := SF2Prim (binary_normalize prec emax z 0 false) in
  if is_infinity f then None else Some f.

Definition str_validator `{!LaxMode} : validator string := λ v,
  match v with
  | VStr s => inr s
  | VNone => fail type_error
  | _ => of_lax (lax_str v)
  end.

Definition int_validator `{!LaxMode} : validator Z := λ v,
  match v with
  | VInt z => inr z
  | VNone => fail type_error
  | _ => of_lax (lax_int v)
  end.

Definition float_validator `{!LaxMode} : validator float := λ v,
  match v with
  | VFloat f => inr f
  | VInt z => of_lax (float_of_int z)
  | VNone => fail type_error
  | _ => of_lax (lax_float v)
  end.

Definition bool_validator `{!LaxMode} : validator bool := λ v,
  match v with
  | VBool b => inr b
  | VNone => fail type_error
  | _ => of_lax (lax_bool v)
  end.

(** [Field(..., ge=bound)] on a float and on an int. *)
Definition ge_float (bound : float) (val : validator float) : validator float :=
  λ v, match val v with
       | inr f => if PrimFloat.leb bound f then inr f else fail greater_than_equal
       | inl es => inl es
       end.

Definition ge_int (bound : Z) (val : validator Z) : validator Z :=
  λ v, match val v with
       | inr z => if (bound <=? z)%Z then inr z else fail greater_than_equal
       | inl es => inl es
       end.

(** [Optional[T]] *)
Definition optional {A} (val : validator A) : validator (option A) :=
  λ v, match v with
       | VNone => inr None
       | _ => match val v with
              | inr a => inr (Some a)
              | inl es => inl es
              end
       end.

(** [Literal[c1, c2, ...]] of strings *)
Definition literal (choices : list string) : validator string :=
  λ v, match v with
       | VStr s => if decide (s ∈ choices) then inr s else fail literal_error
       | _ => fail literal_error
       end.

Fixpoint validate_items {A} (val : validator A) (i : nat) (l : list value)
  : errors + list A :=
  match l with
  | [] => inr []
  | v :: l' =>
      match at_loc (LIndex i) (val v), validate_items val (S i) l' with
      | inr a, inr rest => inr (a :: rest)
      | r, rs => inl (errs_of r ++ errs_of rs)
      end
  end.

(** [List[T]] *)
Definition list_of {A} (val : validator A) : validator (list A) :=
  λ v, match v with
       | VList l => validate_items val 0 l
       | _ => fail type_error
       end.

(** A field whose type is a model class: the input has to be a dict. *)
Definition model {A} (validate : document → errors + A) : validator A :=
  λ v, match v with
       | VDict d => validate d
       | _ => fail type_error
       end.

(** A field declared without a default, or with [Field(...)]. *)
Definition required {A} (name : string) (val : validator A) (d : document)
  : errors + A :=
  match d !! name with
  | None => inl [([LField name], missing)]
  | Some v => at_loc (LField name) (val v)
  end.

(** A field declared with a default, which is taken as it is when the key
    is absent. *)
Definition with_default {A} (name : string) (dflt : A) (val : validator A)
  (d : document) : errors + A :=
  match d !! name with
  | None => inr dflt
  | Some v => at_loc (LField name) (val v)
  end.

Definition dump_opt_str (o : option string) : value :=
  match o with
  | Some s => VStr s
  | None => VNone
  end.

(** What a model class provides: validation of keyword arguments (or of a
    decoded JSON object) and [model_dump]. *)
Class BaseModel (A : Type) := {
  model_validate : LaxMode → document → errors + A;
  model_dump : A → document
}.

(** Calling a model class on keyword arguments inside an endpoint: the
    instance, or pydantic's [ValidationError]. *)
Definition new `{!LaxMode} `{!BaseModel A} (kwargs : document) : M A :=
  match model_validate _ kwargs with
  | inl es => raise (ValidationError es)
  | inr a => ret a
  end.

(** ** The model classes of schemas.py *)

Module ButcherItem.

Record t := {
  title : string;
  description : option string;
  price_per_kg : float;
  available : bool;
  image : option string
}.

Definition validate `{!LaxMode} (d : document) : errors + t :=
  let r1 := required "title" str_validator d in
  let r2 := with_default "description" None (optional str_validator) d in
  let r3 := required "price_per_kg" (ge_float 0 float_validator) d in
  let r4 := with_default "available" true bool_validator d in
  let r5 := with_default "image" None (optional str_validator) d in
  match r1, r2, r3, r4, r5 with
  | inr a, inr b, inr c, inr e, inr f =>
      inr {| title := a; description := b; price_per_kg := c;
             available := e; image := f |}
  | _, _, _, _, _ =>
      inl (errs_of r1 ++ errs_of r2 ++ errs_of r3 ++ errs_of r4 ++ errs_of r5)
  end.

Definition dump (x : t) : document :=
  {[ "title" := VStr (title x);
     "description" := dump_opt_str (description x);
     "price_per_kg" := VFloat (price_per_kg x);
     "available" := VBool (available x);
     "image" := dump_opt_str (image x) ]}.

#[global] Instance butcher_item_model : BaseModel t :=
  {| model_validate := @validate; model_dump := dump |}.

End ButcherItem.

Module GroceryItem.

Record t := {
  title : string;
  description : option string;
  price : float;
  available : bool;
  image : option string
}.

Definition validate `{!LaxMode} (d : document) : errors + t :=
  let r1 := required "title" str_validator d in
  let r2 := with_default "description" None (optional str_validator) d in
  let r3 := required "price" (ge_float 0 float_validator) d in
  let r4 := with_default "available" true bool_validator d in
  let r5 := with_default "image" None (optional str_validator) d in
  match r1, r2, r3, r4, r5 with
  | inr a, inr b, inr c, inr e, inr f =>
      inr {| title := a; description := b; price := c;
             available := e; image := f |}
  | _, _, _, _, _ =>
      inl (errs_of r1 ++ errs_of r2 ++ errs_of r3 ++ errs_of r4 ++ errs_of r5)
  end.

Definition dump (x : t) : document :=
  {[ "title" := VStr (title x);
     "description" := dump_opt_str (description x);
     "price" := VFloat (price x);
     "available" := VBool (available x);
     "image" := dump_opt_str (image x) ]}.

#[global] Instance grocery_item_model : BaseModel t :=
  {| model_validate := @validate; model_dump := dump |}.

End GroceryItem.

Module OrderItem.

Record t := {
  type : string;
  item_id : string;
  title : string;
  unit_price : float;
  quantity : option Z;
  weight_kg : option float;
  subtotal : float
}.

Definition validate `{!LaxMode} (d : document) : errors + t :=
  let r1 := required "type" (literal ["butcher"; "grocery"]) d in
  let r2 := required "item_id" str_validator d in
  let r3 := required "title" str_validator d in
  let r4 := required "unit_price" (ge_float 0 float_validator) d in
  let r5 := with_default "quantity" None (optional (ge_int 1 int_validator)) d in
  let r6 := with_default "weight_kg" None
              (optional (ge_float 0.1 float_validator)) d in
  let r7 := required "subtotal" (ge_float 0 float_validator) d in
  match r1, r2, r3, r4, r5, r6, r7 with
  | inr a, inr b, inr c, inr e, inr f, inr g, inr h =>
      inr {| type := a; item_id := b; title := c; unit_price := e;
             quantity := f; weight_kg := g; subtotal := h |}
  | _, _, _, _, _, _, _ =>
      inl (errs_of r1 ++ errs_of r2 ++ errs_of r3 ++ errs_of r4 ++
           errs_of r5 ++ errs_of r6 ++ errs_of r7)
  end.

Definition dump (x : t) : document :=
  {[ "type" := VStr (type x);
     "item_id" := VStr (item_id x);
     "title" := VStr (title x);
     "unit_price" := VFloat (unit_price x);
     "quantity" := from_option VInt VNone (quantity x);
     "weight_kg" := from_option VFloat VNone (weight_kg x);
     "subtotal" := VFloat (subtotal x) ]}.

#[global] Instance order_item_model : BaseModel t :=
  {| model_validate := @validate; model_dump := dump |}.

End OrderItem.

Module Order.

Record t := {
  customer_name : string;
  phone : string;
  address : string;
  payment_method : string;
  status : string;
  items : list OrderItem.t;
  total : float
}.

Definition validate `{!LaxMode} (d : document) : errors + t :=
  let r1 := required "customer_name" str_validator d in
  let r2 := required "phone" str_validator d in
  let r3 := required "address" str_validator d in
  let r4 := required "payment_method"
              (literal ["Cash on Delivery"; "Card on Delivery"]) d in
  let r5 := with_default "status" "Pending"
              (literal ["Pending"; "Confirmed"; "Ready for Pickup"; "Delivered"])
              d in
  let r6 := required "items" (list_of (model OrderItem.validate)) d in
  let r7 := required "total" (ge_float 0 float_validator) d in
  match r1, r2, r3, r4, r5, r6, r7 with
  | inr a, inr b, inr c, inr e, inr f, inr g, inr h =>
      inr {| customer_name := a; phone := b; address := c;
             payment_method := e; status := f; items := g; total := h |}
  | _, _, _, _, _, _, _ =>
      inl (errs_of r1 ++ errs_of r2 ++ errs_of r3 ++ errs_of r4 ++
           errs_of r5 ++ errs_of r6 ++ errs_of r7)
  end.

Definition dump (x : t) : document :=
  {[ "customer_name" := VStr (customer_name x);
     "phone" := VStr (phone x);
     "address" := VStr (address x);
     "payment_method" := VStr (payment_method x);
     "status" := VStr (status x);
     "items" := VList ((λ i, VDict (OrderItem.dump i)) <$> items x);
     "total" := VFloat (total x) ]}.

#[global] Instance order_model : BaseModel t :=
  {| model_validate := @validate; model_dump := dump |}.

End Order.

(** The two request classes declared in main.py. *)

Module AdminLoginRequest.

Record t := { password : string }.

Definition validate `{!LaxMode} (d : document) : errors + t :=
  match required "password" str_validator d with
  | inr a => inr {| password := a |}
  | inl es => inl es
  end.

Definition dump (x : t) : document := {[ "password" := VStr (password x) ]}.

#[global] Instance admin_login_request_model : BaseModel t :=
  {| model_validate := @validate; model_dump := dump |}.

End AdminLoginRequest.

Module UpdateStatusRequest.

Record t := { password : string; status : string }.

Definition validate `{!LaxMode} (d : document) : errors + t :=
  let r1 := required "password" str_validator d in
  let r2 := required "status" str_validator d in
  match r1, r2 with
  | inr a, inr b => inr {| password := a; status := b |}
  | _, _ => inl (errs_of r1 ++ errs_of r2)
  end.

Definition dump (x : t) : document :=
  {[ "password" := VStr (password x); "status" := VStr (status x) ]}.

#[global] Instance update_status_request_model : BaseModel t :=
  {| model_validate := @validate; model_dump := dump |}.

End UpdateStatusRequest.

(** ** The document store *)

Definition hex_digit (n : N) : ascii :=
  default "0"%char
    (list_ascii_of_string "0123456789abcdef" !! N.to_nat n).

Definition hex_byte (b : N) : string :=
  String (hex_digit (b / 16)) (String (hex_digit (b mod 16)) "").

(** [str(oid)]: two lower-case hexadecimal digits per byte. *)
Definition str_of_oid (oid : list N) : string :=
  foldr (λ b s, hex_byte b +:+ s) "" oid.

(** Modelled from the spec: the store assigns each new document an opaque
    id (spec §4.1; the adapter, database.py, is not among the sources).
    Here the id is the store's running counter written on twelve bytes,
    most significant first. *)
Definition fresh_oid (n : N) : list N :=
  (λ i, (n / 256 ^ N.of_nat i) mod 256)%N <$> rev (seq 0 12).

Definition set_collection (name : string) (docs : list document) (w : World)
  : World :=
  match db w with
  | None => w
  | Some D =>
      {| environ := environ w;
         db := Some {| collections := <[name := docs]> (collections D);
                       next_oid := next_oid D |} |}
  end.

Definition collection (name : string) (D : Database) : list document :=
  default [] (collections D !! name).

(** Modelled from the spec: [create_document] of database.py, which is not
    among the sources.  Spec §4.1: [create(collectionName, record)]
    persists one new document and returns its opaque id, and surfaces a
    store-unavailable condition when no connection was established.  The
    new document is [model_dump] of the record under a fresh ["_id"], put
    last in its collection. *)
Definition create_document `{!BaseModel A} (collection_name : string) (data : A)
  : M string :=
  λ w, match db w with
       | None => (Raise (Exception "store unavailable"), w)
       | Some D =>
           let oid := fresh_oid (next_oid D) in
           let doc := <["_id" := VObjectId oid]> (model_dump data) in
           (Ok (str_of_oid oid),
            {| environ := environ w;
               db := Some {| collections :=
                               <[collection_name :=
                                   collection collection_name D ++ [doc]]>
                                 (collections D);
                             next_oid := N.succ (next_oid D) |} |})
       end.

(** Modelled from the spec: [get_documents] of database.py, which is not
    among the sources.  Spec §4.1: [list(collectionName)] returns the raw
    documents of the collection in storage order, with no filtering, and
    surfaces a store-unavailable condition when no connection was
    established. *)
Definition get_documents (collection_name : string) : M (list document) :=
  λ w, match db w with
       | None => (Raise (Exception "store unavailable"), w)
       | Some D => (Ok (collection collection_name D), w)
       end.

(** *** bson.ObjectId and pymongo's update_one *)

Definition hex_value (c : ascii) : option N :=
  let n := N_of_ascii c in
  if ((48 <=? n) && (n <=? 57))%N then Some (n - 48)%N
  else if ((97 <=? n) && (n <=? 102))%N then Some (n - 87)%N
  else if ((65 <=? n) && (n <=? 70))%N then Some (n - 55)%N
  else None.

Definition is_ascii_space (c : ascii) : bool :=
  let n := N_of_ascii c in
  ((n =? 32) || ((9 <=? n) && (n <=? 13)))%N.

(** [bytes.fromhex]: pairs of hexadecimal digits, white space allowed
    between the pairs. *)
Fixpoint fromhex (s : string) : option (list N) :=
  match s with
  | EmptyString => Some []
  | String c s' =>
      if is_ascii_space c then fromhex s'
      else
        match hex_value c, s' with
        | Some hi, String c' s'' =>
            match hex_value c' with
            | Some lo => cons (16 * hi + lo)%N <$> fromhex s''
            | None => None
            end
        | _, _ => None
        end
  end.

(** What [ObjectId(oid)] reads from a string: 24 characters that
    [bytes.fromhex] accepts. *)
Definition oid_of_string (oid : string) : option (list N) :=
  if decide (String.length oid = 24%nat) then fromhex oid else None.

(** [ObjectId(oid)] on a string; [InvalidId] when it is not well formed. *)
Definition ObjectId (oid : string) : M (list N) :=
  match oid_of_string oid with
  | Some bs => ret bs
  | None => raise InvalidId
  end.

(** The filter [{"_id": oid}]. *)
Definition has_id (oid : list N) (d : document) : bool :=
  match d !! "_id" with
  | Some (VObjectId o) => bool_decide (o = oid)
  | _ => false
  end.

(** The update [{"$set": fields}]. *)
Definition set_fields (fields : list (string * value)) (d : document)
  : document :=
  foldl (λ acc kv, <[kv.1 := kv.2]> acc) d fields.

Fixpoint update_first (p : document → bool) (f : document → document)
  (docs : list document) : option (list document) :=
  match docs with
  | [] => None
  | d :: docs' =>
      if p d then Some (f d :: docs')
      else cons d <$> update_first p f docs'
  end.

(** [db[name].update_one({"_id": oid}, {"$set": fields})], returning the
    result's [matched_count]: the first matching document is updated, and
    nothing is written when none matches. *)
Definition update_one (name : string) (oid : list N)
  (fields : list (string * value)) : M Z :=
  λ w, match db w with
       | None => (Raise (Exception "'NoneType' object is not subscriptable"), w)
       | Some D =>
           match update_first (has_id oid) (set_fields fields)
                   (collection name D) with
           | None => (Ok 0%Z, w)
           | Some docs' => (Ok 1%Z, set_collection name docs' w)
           end
       end.

(** ** The endpoints of main.py *)

Definition raise_if (c : bool) (e : exn) : M unit :=
  if c then raise e else ret tt.

Definition list_butcher_items `{!LaxMode} : M (list ButcherItem.t) :=
  let! docs := get_documents "butcheritem" in
  for_each
    (λ d, new (project d
                 ["title"; "description"; "price_per_kg"; "available"; "image"]))
    docs.

Definition create_butcher_item (item : ButcherItem.t)
  (auth : AdminLoginRequest.t) : M document :=
  verify_admin (AdminLoginRequest.password auth);;
  let! new_id := create_document "butcheritem" item in
  ret {[ "_id" := VStr new_id ]}.

Definition list_grocery_items `{!LaxMode} : M (list GroceryItem.t) :=
  let! docs := get_documents "groceryitem" in
  for_each
    (λ d, new (project d
                 ["title"; "description"; "price"; "available"; "image"]))
    docs.

Definition create_grocery_item (item : GroceryItem.t)
  (auth : AdminLoginRequest.t) : M document :=
  verify_admin (AdminLoginRequest.password auth);;
  let! new_id := create_document "groceryitem" item in
  ret {[ "_id" := VStr new_id ]}.

Definition create_order (order : Order.t) : M document :=
  raise_if
    (bool_decide (Order.payment_method order
                    ∉ ["Cash on Delivery"; "Card on Delivery"]))
    (HTTPException 400 "Unsupported payment method");;
  let! order_id := create_document "order" order in
  ret {[ "_id" := VStr order_id ]}.

Definition update_order_status (order_id : string)
  (body : UpdateStatusRequest.t) : M document :=
  verify_admin (UpdateStatusRequest.password body);;
  raise_if
    (bool_decide (UpdateStatusRequest.status body
                    ∉ ["Pending"; "Confirmed"; "Ready for Pickup"; "Delivered"]))
    (HTTPException 400 "Invalid status");;
  (λ w, raise_if (bool_decide (db w = None))
          (HTTPException 500 "Database not available") w);;
  try_except
    (let! oid := ObjectId order_id in
     let! matched_count :=
       update_one "order" oid
         [("status", VStr (UpdateStatusRequest.status body));
          ("updated_at", VNone)] in
     raise_if (matched_count =? 0)%Z (HTTPException 404 "Order not found"))
    (λ _, raise (HTTPException 400 "Invalid order id"));;
  ret {[ "ok" := VBool true ]}.

(** ** Requests and responses (FastAPI)

    The framework validates the decoded JSON body against the classes the
    endpoint declares before it calls the endpoint, and raises its
    [RequestValidationError] with the field-level errors when that fails
    (its handler answers that with 422, see [http_status]).  An endpoint
    with one body
    parameter reads the body as that object; an endpoint with several reads
    each parameter under its own name. *)

Definition single_param `{!LaxMode} `{!BaseModel A} (body : value) : errors + A :=
  at_loc (LField "body") (model (model_validate _) body).

Definition embedded_param `{!LaxMode} `{!BaseModel A} (name : string)
  (body : value) : errors + A :=
  match body with
  | VDict d =>
      match d !! name with
      | None => inl [([LField "body"; LField name], missing)]
      | Some v =>
          at_loc (LField "body")
            (at_loc (LField name) (model (model_validate _) v))
      end
  | _ => inl [([LField "body"; LField name], missing)]
  end.

(** What a value is written as in a response that is declared with a
    model class: a float that is infinite or not a number becomes null,
    at any depth; every other value is written as it is. *)
Fixpoint to_json (v : value) : value :=
  match v with
  | VFloat f => if is_finite f then v else VNone
  | VList l => VList (to_json <$> l)
  | VDict d => VDict (to_json <$> d)
  | _ => v
  end.

(** [response_model=List[C]]: every instance is written out with all the
    fields of its class. *)
Definition response_list `{!BaseModel A} (items : list A) : list document :=
  (λ x, to_json <$> model_dump x) <$> items.

Definition GET_api_butcher `{!LaxMode} : M (list document) :=
  let! items := list_butcher_items in
  ret (response_list items).

Definition GET_api_grocery `{!LaxMode} : M (list document) :=
  let! items := list_grocery_items in
  ret (response_list items).

Definition POST_api_admin_butcher `{!LaxMode} (body : value) : M document :=
  let r1 := embedded_param "item" body in
  let r2 := embedded_param "auth" body in
  match r1, r2 with
  | inr item, inr auth => create_butcher_item item auth
  | _, _ => raise (RequestValidationError (errs_of r1 ++ errs_of r2))
  end.

Definition POST_api_admin_grocery `{!LaxMode} (body : value) : M document :=
  let r1 := embedded_param "item" body in
  let r2 := embedded_param "auth" body in
  match r1, r2 with
  | inr item, inr auth => create_grocery_item item auth
  | _, _ => raise (RequestValidationError (errs_of r1 ++ errs_of r2))
  end.

Definition POST_api_orders `{!LaxMode} (body : value) : M document :=
  match single_param body with
  | inr order => create_order order
  | inl es => raise (RequestValidationError es)
  end.

Definition POST_api_admin_orders_status `{!LaxMode} (order_id : string)
  (body : value) : M document :=
  match single_param body with
  | inr req => update_order_status order_id req
  | inl es => raise (RequestValidationError es)
  end.

(** ** Sample states and requests *)

Definition empty_store : World :=
  {| environ := ∅; db := Some {| collections := ∅; next_oid := 0 |} |}.

Definition order_body (status : option string) (payment_method : string)
  : document :=
  let d : document :=
    {[ "customer_name" := VStr "Ada";
       "phone" := VStr "555-0100";
       "address" := VStr "1 Main St";
       "payment_method" := VStr payment_method;
       "items" := VList [VDict {[ "type" := VStr "grocery";
                                  "item_id" := VStr "abc";
                                  "title" := VStr "Milk";
                                  "unit_price" := VFloat 3.5;
                                  "quantity" := VInt 2;
                                  "subtotal" := VInt 7 ]}];
       "total" := VInt 7 ]} in
  match status with
  | Some s => <["status" := VStr s]> d
  | None => d
  end.

Definition butcher_body (title : string) (password : string) : value :=
  VDict {[ "item" := VDict {[ "title" := VStr title;
                             "price_per_kg" := VFloat 12.5 ]};
           "auth" := VDict {[ "password" := VStr password ]} ]}.

Definition labels : list string :=
  ["Pending"; "Confirmed"; "Ready for Pickup"; "Delivered"].

(** The stored documents of a collection; none when there is no store. *)
Definition stored (name : string) (w : World) : list document :=
  from_option (collection name) [] (db w).

Definition orders (w : World) : list document := stored "order" w.

Definition sample_request (password status : string) : UpdateStatusRequest.t :=
  {| UpdateStatusRequest.password := password;
     UpdateStatusRequest.status := status |}.

(** The empty store after one order was placed: its id is twelve zero
    bytes. *)
Definition one_order : World :=
  (@POST_api_orders strict
     (VDict (order_body None "Cash on Delivery")) empty_store).2.

(** The empty store after an order that asks for "Delivered" was placed. *)
Definition delivered_order : World :=
  (@POST_api_orders strict
     (VDict (order_body (Some "Delivered") "Cash on Delivery")) empty_store).2.

(** The empty store after a butcher item with an empty title was created. *)
Definition untitled_item : World :=
  (@POST_api_admin_butcher strict (butcher_body "" "admin123") empty_store).2.

(** Whether validation succeeded. *)
Definition accepts {A} (r : errors + A) : bool :=
  match r with
  | inr _ => true
  | inl _ => false
  end.

(** What a record [r] of a public listing has to be for the stored
    document [d] it was made from: the five public fields and no other
    (so neither the id nor any further stored field), each stored value of
    the field's own type handed on as the response writes it (unchanged,
    but for an infinite price, which is written as null), an absent or
    null description or image written as [None]. *)
Definition public_record (price_key : string) (d r : document) : Prop :=
  dom r = {[ "title"; "description"; price_key; "available"; "image" ]} ∧
  r !! "_id" = None ∧
  (∀ s, d !! "title" = Some (VStr s) → r !! "title" = Some (VStr s)) ∧
  (∀ f, d !! price_key = Some (VFloat f) →
        r !! price_key = Some (to_json (VFloat f))) ∧
  (∀ b, d !! "available" = Some (VBool b) → r !! "available" = Some (VBool b)) ∧
  (∀ k, k = "description" ∨ k = "image" →
        (∀ s, d !! k = Some (VStr s) → r !! k = Some (VStr s)) ∧
        (dict_get d k = VNone → r !! k = Some VNone)).

(** A butcher collection with a stray field on its first document and no
    title on its second. *)
Definition ribeye : document :=
  {[ "_id" := VObjectId (replicate 12 7%N);
     "title" := VStr "Ribeye";
     "description" := VNone;
     "price_per_kg" := VFloat 42.5;
     "available" := VBool true;
     "image" := VStr "https://example.org/ribeye.png";
     "supplier" := VStr "Hill Farm" ]}.

Definition milk : document :=
  {[ "_id" := VObjectId (replicate 12 9%N);
     "title" := VStr "Milk";
     "description" := VNone;
     "price" := VFloat 3.5;
     "available" := VBool true;
     "image" := VNone ]}.

(** A grocery document that the schema accepts, stored without its
    defaulted field. *)
Definition eggs : document :=
  {[ "title" := VStr "Eggs"; "price" := VFloat 2.5 ]}.

Definition catalog_db (butcher grocery : list document) : Database :=
  {| collections := {[ "butcheritem" := butcher; "groceryitem" := grocery ]};
     next_oid := 10 |}.

Definition catalog (butcher grocery : list document) : World :=
  {| environ := ∅; db := Some (catalog_db butcher grocery) |}.

Definition one_order_db : Database :=
  default {| collections := ∅; next_oid := 0 |} (db one_order).

Definition one_order_doc : document :=
  default ∅ (head (orders one_order)).

(** ** The remaining endpoints of main.py *)

(** Two Python built-ins that the endpoints below call on stored values
    and that lie outside what is modelled: the text [str] gives for a
    number or a container, and [isoformat], which only date-time values
    have ([None] here stands for a value without the attribute). *)
Class Builtins := {
  py_repr : value → string;
  py_isoformat : value → option string
}.

(** [str(v)] *)
Definition py_str `{!Builtins} (v : value) : string :=
  match v with
  | VStr s => s
  | VObjectId oid => str_of_oid oid
  | VNone => "None"
  | VBool true => "True"
  | VBool false => "False"
  | _ => py_repr v
  end.

(** The body of the loop of [serialize_doc]: a field that is there and
    has [isoformat] is replaced by its text. *)
Definition isoformat_field `{!Builtins} (doc : document) (k : string)
  : document :=
  match doc !! k with
  | Some v =>
      match py_isoformat v with
      | Some s => <[k := VStr s]> doc
      | None => doc
      end
  | None => doc
  end.

(** main.py, lines 23-31.  An empty dict is falsy and is returned as it
    is. *)
Definition serialize_doc `{!Builtins} (doc : document) : document :=
  if decide (dom doc = ∅) then doc
  else
    let doc1 :=
      <["_id" := match doc !! "_id" with
                 | Some v => VStr (py_str v)
                 | None => VNone
                 end]> doc in
    foldl isoformat_field doc1 ["created_at"; "updated_at"].

Definition list_butcher_items_raw `{!Builtins} : M (list document) :=
  let! docs := get_documents "butcheritem" in
  ret (serialize_doc <$> docs).

Definition list_grocery_items_raw `{!Builtins} : M (list document) :=
  let! docs := get_documents "groceryitem" in
  ret (serialize_doc <$> docs).

Definition list_orders `{!Builtins} (auth_password : string)
  : M (list document) :=
  verify_admin auth_password;;
  let! docs := get_documents "order" in
  ret (serialize_doc <$> docs).

(** Built-ins for the examples: no value is a date-time, as in every state
    the modelled endpoints build, and the text of numbers and containers,
    which no example asks for, is left empty. *)
Definition plain_builtins : Builtins :=
  {| py_repr := λ _, ""; py_isoformat := λ _, None |}.

(** The ways in which one line of an order can break a bound of the
    schema: a quantity below one, a weight below 0.1 kg, a negative price
    or subtotal (or one that is not a number), a type other than the two
    kinds. *)
Definition breaks_bound (it : document) : Prop :=
  (∃ z, it !! "quantity" = Some (VInt z) ∧ (z < 1)%Z) ∨
  (∃ f, it !! "weight_kg" = Some (VFloat f) ∧ PrimFloat.leb 0.1 f = false) ∨
  (∃ f, it !! "unit_price" = Some (VFloat f) ∧ PrimFloat.leb 0 f = false) ∨
  (∃ f, it !! "subtotal" = Some (VFloat f) ∧ PrimFloat.leb 0 f = false) ∨
  (∃ s, it !! "type" = Some (VStr s) ∧ s ∉ ["butcher"; "grocery"]).


(** ** The service as a state machine *)

(** The requests that read or write the catalog and the orders.  The other
    endpoints of main.py only read. *)
Inductive request :=
| GetButcher
| GetGrocery
| PostAdminButcher (body : value)
| PostAdminGrocery (body : value)
| PostOrders (body : value)
| PostOrderStatus (order_id : string) (body : value).

(** The state a request leaves behind, whatever it answers. *)
Definition serve `{!LaxMode} (r : request) (w : World) : World :=
  match r with
  | GetButcher => (GET_api_butcher w).2
  | GetGrocery => (GET_api_grocery w).2
  | PostAdminButcher body => (POST_api_admin_butcher body w).2
  | PostAdminGrocery body => (POST_api_admin_grocery body w).2
  | PostOrders body => (POST_api_orders body w).2
  | PostOrderStatus order_id body =>
      (POST_api_admin_orders_status order_id body w).2
  end.

(** The states the service gets to from a store with an empty catalog. *)
Inductive reachable `{!LaxMode} : World → Prop :=
| reachable_start w :
    stored "butcheritem" w = [] → stored "groceryitem" w = [] → reachable w
| reachable_serve r w : reachable w → reachable (serve r w).

(** A stored document that the list endpoint of its kind can read. *)
Definition valid_butcher `{!LaxMode} (d : document) : Prop :=
  accepts (ButcherItem.validate
             (project d ["title"; "description"; "price_per_kg";
                         "available"; "image"])) = true.

Definition valid_grocery `{!LaxMode} (d : document) : Prop :=
  accepts (GroceryItem.validate
             (project d ["title"; "description"; "price";
                         "available"; "image"])) = true.

Definition catalog_valid `{!LaxMode} (w : World) : Prop :=
  Forall valid_butcher (stored "butcheritem" w) ∧
  Forall valid_grocery (stored "groceryitem" w).

(** * Properties *)

(** ** The admin gate *)

Lemma verify_admin_eq password w :
  verify_admin password w =
  (if decide (password = configured_secret w)
   then Ok tt
   else Raise (HTTPException 401 "Invalid admin password"), w).
Proof.
  unfold verify_admin, bind, os_getenv, configured_secret, default.
  destruct (environ w !! "ADMIN_PASSWORD") as [s|];
    repeat case_decide; done.
Qed.

(** C9: [verify_admin] succeeds exactly when the supplied password is
    string-equal to the configured secret ([ADMIN_PASSWORD], or "admin123"
    when it is unset); for every other string it raises the 401
    authorization error, and it never touches the state. *)
Theorem verify_admin_iff_exact_match (password : string) (w : World) :
  (verify_admin password w = (Ok tt, w) ↔ password = configured_secret w) ∧
  (verify_admin password w =
     (Raise (HTTPException 401 "Invalid admin password"), w)
   ↔ password ≠ configured_secret w) ∧
  (environ w !! "ADMIN_PASSWORD" = None → configured_secret w = "admin123").
Proof.
  rewrite verify_admin_eq. split_and!.
  - case_decide; split; intros; try done; congruence.
  - case_decide; split; intros; try done; congruence.
  - unfold configured_secret. by intros ->.
Qed.

(** ** The status transition *)

Lemma update_first_none p f docs :
  Forall (λ d, p d = false) docs → update_first p f docs = None.
Proof.
  induction 1 as [|d docs Hd _ IH]; simpl; [done|].
  by rewrite Hd, IH.
Qed.

Lemma update_first_app p f pre d post :
  Forall (λ x, p x = false) pre → p d = true →
  update_first p f (pre ++ d :: post) = Some (pre ++ f d :: post).
Proof.
  intros Hpre Hd. induction Hpre as [|x pre Hx _ IH]; simpl.
  - by rewrite Hd.
  - by rewrite Hx, IH.
Qed.

(** What runs once the password and the status have been accepted. *)
Lemma update_order_status_authorized order_id body w :
  UpdateStatusRequest.password body = configured_secret w →
  UpdateStatusRequest.status body ∈ labels →
  update_order_status order_id body w =
  match db w with
  | None => (Raise (HTTPException 500 "Database not available"), w)
  | Some D =>
      match oid_of_string order_id with
      | None => (Raise (HTTPException 400 "Invalid order id"), w)
      | Some oid =>
          match update_first (has_id oid)
                  (set_fields [("status", VStr (UpdateStatusRequest.status body));
                               ("updated_at", VNone)])
                  (collection "order" D) with
          | None => (Raise (HTTPException 400 "Invalid order id"), w)
          | Some docs' =>
              (Ok {[ "ok" := VBool true ]}, set_collection "order" docs' w)
          end
      end
  end.
Proof.
  intros Hpw Hst. unfold update_order_status, bind at 1.
  rewrite verify_admin_eq, decide_True by done.
  unfold bind at 1, raise_if at 1.
  rewrite bool_decide_eq_false_2 by (intros Hn; apply Hn, Hst).
  unfold ret at 1, bind at 1, raise_if at 1.
  destruct (db w) as [D|] eqn:HD.
  - rewrite bool_decide_eq_false_2 by done.
    unfold ret at 1, bind at 1, try_except, bind at 1, ObjectId.
    destruct (oid_of_string order_id) as [oid|]; [|done].
    unfold ret at 1, bind at 1, update_one. rewrite HD.
    destruct (update_first _ _ _) as [docs'|]; [|done].
    simpl. unfold set_collection. by rewrite HD.
  - by rewrite bool_decide_eq_true_2.
Qed.

(** The two early exits of the endpoint. *)
Lemma update_order_status_unauthorized order_id body w :
  UpdateStatusRequest.password body ≠ configured_secret w →
  update_order_status order_id body w =
    (Raise (HTTPException 401 "Invalid admin password"), w).
Proof.
  intros Hpw. unfold update_order_status, bind at 1.
  by rewrite verify_admin_eq, decide_False.
Qed.

Lemma update_order_status_bad_label order_id body w :
  UpdateStatusRequest.password body = configured_secret w →
  UpdateStatusRequest.status body ∉ labels →
  update_order_status order_id body w =
    (Raise (HTTPException 400 "Invalid status"), w).
Proof.
  intros Hpw Hst. unfold update_order_status, bind at 1.
  rewrite verify_admin_eq, decide_True by done.
  unfold bind at 1, raise_if at 1.
  by rewrite bool_decide_eq_true_2.
Qed.

(** C3: with a password other than the configured secret the status
    endpoint raises the 401 authorization error before anything else, and
    the state, hence every order with its status and updated_at, is
    exactly what it was, whatever the order id and the status are. *)
Theorem update_order_status_wrong_secret
  (order_id : string) (body : UpdateStatusRequest.t) (w : World) :
  UpdateStatusRequest.password body ≠ configured_secret w →
  update_order_status order_id body w =
    (Raise (HTTPException 401 "Invalid admin password"), w) ∧
  http_status (HTTPException 401 "Invalid admin password") = Some 401%Z.
Proof.
  intros Hpw. split; [|done]. by apply update_order_status_unauthorized.
Qed.

Lemma update_order_status_wrong_secret_witness :
  update_order_status "000000000000000000000000"
    (sample_request "guess" "Delivered") one_order =
    (Raise (HTTPException 401 "Invalid admin password"), one_order) ∧
  http_status (HTTPException 401 "Invalid admin password") = Some 401%Z.
Proof.
  apply (update_order_status_wrong_secret
           "000000000000000000000000" (sample_request "guess" "Delivered")
           one_order).
  apply (bool_decide_unpack _). vm_compute. exact I.
Defined.

(** C4: with the right password and a status outside the four labels the
    status endpoint raises the 400 "Invalid status" error and leaves the
    state, hence the target order, unchanged. *)
Theorem update_order_status_invalid_label
  (order_id : string) (body : UpdateStatusRequest.t) (w : World) :
  UpdateStatusRequest.password body = configured_secret w →
  UpdateStatusRequest.status body ∉ labels →
  update_order_status order_id body w =
    (Raise (HTTPException 400 "Invalid status"), w).
Proof. apply update_order_status_bad_label. Qed.

Lemma update_order_status_invalid_label_witness :
  update_order_status "000000000000000000000000"
    (sample_request "admin123" "Shipped") one_order =
    (Raise (HTTPException 400 "Invalid status"), one_order).
Proof.
  apply (update_order_status_invalid_label
           "000000000000000000000000" (sample_request "admin123" "Shipped")
           one_order).
  - vm_compute. exact eq_refl.
  - apply (bool_decide_unpack _). vm_compute. exact I.
Defined.

(** C2: when the order id is malformed, or well formed but borne by no
    stored order, the status endpoint raises and writes nothing; once the
    password and the status have been accepted (and a store is connected)
    the error is the 400 "Invalid order id" one.  The 404 raised inside
    the [try] is caught by its own handler and leaves as that same 400. *)
Theorem update_order_status_unknown_id
  (order_id : string) (body : UpdateStatusRequest.t) (w : World) :
  (∀ oid, oid_of_string order_id = Some oid →
          Forall (λ d, has_id oid d = false) (orders w)) →
  (∃ e, update_order_status order_id body w = (Raise e, w)) ∧
  (UpdateStatusRequest.password body = configured_secret w →
   UpdateStatusRequest.status body ∈ labels →
   is_Some (db w) →
   update_order_status order_id body w =
     (Raise (HTTPException 400 "Invalid order id"), w)).
Proof.
  intros Hno.
  assert (Hauth : UpdateStatusRequest.password body = configured_secret w →
                  UpdateStatusRequest.status body ∈ labels →
                  ∃ e, update_order_status order_id body w = (Raise e, w) ∧
                       (is_Some (db w) →
                        e = HTTPException 400 "Invalid order id")).
  { intros Hpw Hst. rewrite update_order_status_authorized by done.
    unfold orders, stored in Hno.
    destruct (db w) as [D|]; simpl in Hno.
    - destruct (oid_of_string order_id) as [oid|]; [|by eexists].
      rewrite (update_first_none _ _ _ (Hno oid eq_refl)). by eexists.
    - eexists. split; [done|]. by intros [? ?]. }
  split.
  - destruct (decide (UpdateStatusRequest.password body = configured_secret w))
      as [Hpw|Hpw].
    + destruct (decide (UpdateStatusRequest.status body ∈ labels)) as [Hst|Hst].
      * destruct (Hauth Hpw Hst) as (e & He & _). eauto.
      * rewrite update_order_status_bad_label by done. eauto.
    + rewrite update_order_status_unauthorized by done. eauto.
  - intros Hpw Hst Hdb. destruct (Hauth Hpw Hst) as (e & He & Hk).
    by rewrite He, (Hk Hdb).
Qed.

Lemma update_order_status_unknown_id_witness :
  update_order_status "000000000000000000000001"
    (sample_request "admin123" "Delivered") one_order =
    (Raise (HTTPException 400 "Invalid order id"), one_order).
Proof.
  refine (proj2 (update_order_status_unknown_id
                   "000000000000000000000001"
                   (sample_request "admin123" "Delivered") one_order _) _ _ _).
  - intros oid Hoid.
    assert (Hc : oid_of_string "000000000000000000000001"
                 = Some (replicate 11 0%N ++ [1%N]))
      by (vm_compute; exact eq_refl).
    rewrite Hc in Hoid. injection Hoid as <-.
    apply (bool_decide_unpack _). vm_compute. exact I.
  - vm_compute. exact eq_refl.
  - apply (bool_decide_unpack _). vm_compute. exact I.
  - vm_compute. eauto.
Defined.

Lemma set_fields_status_lookup (s : string) (d : document) (k : string) :
  set_fields [("status", VStr s); ("updated_at", VNone)] d !! k =
  if decide (k = "updated_at") then Some VNone
  else if decide (k = "status") then Some (VStr s)
  else d !! k.
Proof.
  unfold set_fields; simpl.
  repeat case_decide; subst; simplify_map_eq; done.
Qed.

(** C8: with the right password, one of the four labels and an id that a
    stored order bears, the status endpoint answers [{"ok": True}] and
    rewrites that order alone: its status becomes the requested one, its
    updated_at becomes [None], every other field of it keeps its value,
    and the orders before and after it, the other collections, the id
    counter and the environment are what they were. *)
Theorem update_order_status_frame
  (order_id : string) (body : UpdateStatusRequest.t) (w : World)
  (D : Database) (oid : list N) (pre post : list document) (d : document) :
  UpdateStatusRequest.password body = configured_secret w →
  UpdateStatusRequest.status body ∈ labels →
  db w = Some D →
  oid_of_string order_id = Some oid →
  collection "order" D = pre ++ d :: post →
  Forall (λ x, has_id oid x = false) pre →
  has_id oid d = true →
  ∃ d' : document,
    update_order_status order_id body w =
      (Ok {[ "ok" := VBool true ]},
       {| environ := environ w;
          db := Some {| collections :=
                          <["order" := pre ++ d' :: post]> (collections D);
                        next_oid := next_oid D |} |}) ∧
    d' !! "status" = Some (VStr (UpdateStatusRequest.status body)) ∧
    d' !! "updated_at" = Some VNone ∧
    ∀ k, k ≠ "status" → k ≠ "updated_at" → d' !! k = d !! k.
Proof.
  intros Hpw Hst HD Hoid Hcoll Hpre Hd.
  eexists. split_and!.
  - rewrite update_order_status_authorized by done.
    rewrite HD, Hoid, Hcoll, (update_first_app _ _ _ _ _ Hpre Hd).
    unfold set_collection. by rewrite HD.
  - by rewrite set_fields_status_lookup.
  - by rewrite set_fields_status_lookup.
  - intros k Hk1 Hk2. rewrite set_fields_status_lookup.
    by rewrite !decide_False.
Qed.

Lemma update_order_status_frame_witness :
  ∃ d' : document,
    update_order_status "000000000000000000000000"
      (sample_request "admin123" "Delivered") one_order =
      (Ok {[ "ok" := VBool true ]},
       {| environ := environ one_order;
          db := Some {| collections :=
                          <["order" := [] ++ d' :: []]>
                            (collections one_order_db);
                        next_oid := next_oid one_order_db |} |}) ∧
    d' !! "status" = Some (VStr "Delivered") ∧
    d' !! "updated_at" = Some VNone ∧
    ∀ k, k ≠ "status" → k ≠ "updated_at" → d' !! k = one_order_doc !! k.
Proof.
  apply (update_order_status_frame
           "000000000000000000000000" (sample_request "admin123" "Delivered")
           one_order one_order_db (replicate 12 0%N) [] [] one_order_doc).
  - vm_compute. exact eq_refl.
  - apply (bool_decide_unpack _). vm_compute. exact I.
  - vm_compute. exact eq_refl.
  - vm_compute. exact eq_refl.
  - vm_compute. exact eq_refl.
  - constructor.
  - vm_compute. exact eq_refl.
Defined.

(** ** Placing an order *)

Lemma at_loc_inr {A} i (r : errors + A) a : at_loc i r = inr a → r = inr a.
Proof. by destruct r. Qed.

Lemma literal_inr choices v s :
  literal choices v = inr s → v = VStr s ∧ s ∈ choices.
Proof.
  unfold literal. destruct v; try done.
  case_decide; [|done]. by intros [= ->].
Qed.

Lemma required_literal_inr name choices (d : document) s :
  required name (literal choices) d = inr s →
  d !! name = Some (VStr s) ∧ s ∈ choices.
Proof.
  unfold required. destruct (d !! name) as [v|]; [|done].
  intros H%at_loc_inr%literal_inr. by destruct H as [-> ?].
Qed.

Lemma with_default_literal_inr name dflt choices (d : document) s :
  with_default name dflt (literal choices) d = inr s →
  match d !! name with
  | None => s = dflt
  | Some v => v = VStr s ∧ s ∈ choices
  end.
Proof.
  unfold with_default. destruct (d !! name) as [v|].
  - by intros H%at_loc_inr%literal_inr.
  - by intros [= ->].
Qed.

(** What an accepted order says about the two constrained fields of the
    body it was read from. *)
Lemma order_validate_inr `{!LaxMode} (d : document) (order : Order.t) :
  Order.validate d = inr order →
  (d !! "payment_method" = Some (VStr (Order.payment_method order)) ∧
   Order.payment_method order ∈ ["Cash on Delivery"; "Card on Delivery"]) ∧
  match d !! "status" with
  | None => Order.status order = "Pending"
  | Some v => v = VStr (Order.status order) ∧ Order.status order ∈ labels
  end.
Proof.
  unfold Order.validate.
  destruct (required "customer_name" _ d); [done|].
  destruct (required "phone" _ d); [done|].
  destruct (required "address" _ d); [done|].
  destruct (required "payment_method" _ d) as [|pm] eqn:Hpm; [done|].
  destruct (with_default "status" _ _ d) as [|st] eqn:Hst; [done|].
  destruct (required "items" _ d); [done|].
  destruct (required "total" _ d); [done|].
  intros [= <-]; simpl. split.
  - by apply required_literal_inr.
  - by apply with_default_literal_inr in Hst.
Qed.

Lemma create_document_ok `{!BaseModel A} name (data : A) w D :
  db w = Some D →
  create_document name data w =
    (Ok (str_of_oid (fresh_oid (next_oid D))),
     {| environ := environ w;
        db := Some {| collections :=
                        <[name := collection name D ++
                                  [<["_id" := VObjectId (fresh_oid (next_oid D))]>
                                     (model_dump data)]]> (collections D);
                      next_oid := N.succ (next_oid D) |} |}).
Proof. intros HD. unfold create_document. by rewrite HD. Qed.

Lemma create_document_unavailable `{!BaseModel A} name (data : A) w :
  db w = None →
  create_document name data w = (Raise (Exception "store unavailable"), w).
Proof. intros HD. unfold create_document. by rewrite HD. Qed.

(** The guard of [create_order] on its own: a payment method outside the
    whitelist is answered 400 with nothing written. *)
Lemma create_order_guard (order : Order.t) (w : World) :
  Order.payment_method order ∉ ["Cash on Delivery"; "Card on Delivery"] →
  create_order order w =
    (Raise (HTTPException 400 "Unsupported payment method"), w).
Proof.
  intros Hpm. unfold create_order, bind at 1, raise_if.
  by rewrite bool_decide_eq_true_2.
Qed.

(** An order that passes the guard is stored last in its collection, as it
    was validated. *)
Lemma create_order_ok (order : Order.t) (w w' : World) (resp : document) :
  create_order order w = (Ok resp, w') →
  ∃ oid, stored "order" w' =
           stored "order" w ++ [<["_id" := VObjectId oid]> (Order.dump order)].
Proof.
  unfold create_order, bind at 1, raise_if.
  case_bool_decide; [done|]. unfold ret at 1, bind.
  destruct (db w) as [D|] eqn:HD.
  - rewrite (create_document_ok _ _ _ _ HD). unfold ret. intros [= <- <-].
    eexists. unfold stored, collection; simpl. rewrite HD; simpl.
    by rewrite lookup_insert_eq.
  - by rewrite (create_document_unavailable _ _ _ HD).
Qed.

(** C1 (as amended): an accepted order is stored with the status its body
    supplies, which has to be one of the four labels, and with "Pending"
    only when the body supplies none.  The stored document is the last of
    the order collection, the earlier ones are kept. *)
Theorem create_order_persists_given_status `{!LaxMode}
  (body : value) (w w' : World) (resp : document) :
  POST_api_orders body w = (Ok resp, w') →
  ∃ d doc : document,
    body = VDict d ∧
    orders w' = orders w ++ [doc] ∧
    match d !! "status" with
    | None => doc !! "status" = Some (VStr "Pending")
    | Some v => doc !! "status" = Some v ∧ ∃ s, v = VStr s ∧ s ∈ labels
    end.
Proof.
  unfold POST_api_orders, single_param, model.
  destruct body as [| | | | | | |d]; try done.
  destruct (model_validate _ d) as [es|order] eqn:Hval; [done|].
  simpl. intros [oid Hst]%create_order_ok.
  exists d, (<["_id" := VObjectId oid]> (Order.dump order)).
  split_and!; [done..|].
  assert (Hs : ∀ x : Order.t,
             (<["_id" := VObjectId oid]> (Order.dump x) : document) !! "status"
             = Some (VStr (Order.status x))) by done.
  apply order_validate_inr in Hval as [_ Hstatus].
  destruct (d !! "status") as [v|].
  - destruct Hstatus as [-> Hin]. rewrite Hs. eauto.
  - by rewrite Hs, Hstatus.
Qed.

Lemma create_order_persists_given_status_witness :
  ∃ d doc : document,
    VDict (order_body (Some "Confirmed") "Card on Delivery") = VDict d ∧
    orders (@POST_api_orders strict
              (VDict (order_body (Some "Confirmed") "Card on Delivery"))
              one_order).2
    = orders one_order ++ [doc] ∧
    match d !! "status" with
    | None => doc !! "status" = Some (VStr "Pending")
    | Some v => doc !! "status" = Some v ∧ ∃ s, v = VStr s ∧ s ∈ labels
    end.
Proof.
  apply (@create_order_persists_given_status strict
           (VDict (order_body (Some "Confirmed") "Card on Delivery"))
           one_order _ {[ "_id" := VStr "000000000000000000000001" ]}).
  vm_compute. exact eq_refl.
Defined.

(** C1, the claim as written fails: a body that passes validation with
    status "Delivered" is stored with status "Delivered". *)
Lemma create_order_supplied_status_counterexample :
  (@POST_api_orders strict
     (VDict (order_body (Some "Delivered") "Cash on Delivery")) empty_store).1
  = Ok {[ "_id" := VStr "000000000000000000000000" ]} ∧
  (λ d : document, d !! "status") <$> orders delivered_order
  = [Some (VStr "Delivered")].
Proof. split; vm_compute; exact eq_refl. Qed.

(** C5: an order whose payment_method is not one of the two whitelisted
    strings is refused and nothing is written, at both places where the
    code checks it.  A body in which it is absent, not a string, or
    another string fails the schema: the request is refused with the
    framework's [RequestValidationError], which names the field when the
    body is an object, before [create_order] runs.  And [create_order]
    itself refuses an order with such a payment method with the 400
    "Unsupported payment method".  The state is what it was in both
    cases. *)
Theorem create_order_rejects_payment_method `{!LaxMode}
  (body : value) (w : World) :
  (∀ d pm, body = VDict d → d !! "payment_method" = Some (VStr pm) →
           pm ∉ ["Cash on Delivery"; "Card on Delivery"]) →
  (∃ es, POST_api_orders body w = (Raise (RequestValidationError es), w) ∧
         (∀ d, body = VDict d →
               ∃ e, ([LField "body"; LField "payment_method"], e) ∈ es)) ∧
  (∀ order : Order.t,
     Order.payment_method order ∉ ["Cash on Delivery"; "Card on Delivery"] →
     create_order order w
     = (Raise (HTTPException 400 "Unsupported payment method"), w) ∧
     http_status (HTTPException 400 "Unsupported payment method")
     = Some 400%Z).
Proof.
  intros Hpm. split; [|intros order Hn; split; [by apply create_order_guard|done]].
  unfold POST_api_orders, single_param, model.
  destruct body as [| | | | | | |d];
    try (eexists; split; [reflexivity|intros ? [=]]).
  assert (Hfield : ∃ e, required "payment_method"
                          (literal ["Cash on Delivery"; "Card on Delivery"]) d
                        = inl [([LField "payment_method"], e)]).
  { unfold required.
    destruct (d !! "payment_method") as [v|] eqn:Hd; [|by eexists].
    unfold literal. destruct v as [| | | |pm| | |]; try (by eexists).
    destruct (decide (pm ∈ ["Cash on Delivery"; "Card on Delivery"]))
      as [Hin|Hin]; [|by eexists].
    by destruct (Hpm d pm eq_refl Hd). }
  destruct Hfield as [e He].
  assert (Hval : ∃ es, Order.validate d = inl es ∧
                       ([LField "payment_method"], e) ∈ es).
  { unfold Order.validate. rewrite He.
    destruct (required "customer_name" _ d);
      destruct (required "phone" _ d);
      destruct (required "address" _ d);
      destruct (with_default "status" _ _ d);
      destruct (required "items" _ d);
      destruct (required "total" _ d); simpl;
      eexists; (split; [reflexivity|]);
      rewrite ?elem_of_app, ?elem_of_cons; auto 10. }
  destruct Hval as (es & Hval & Hin).
  change (model_validate (A := Order.t) _ d = inl es) in Hval.
  rewrite Hval. simpl. eexists. split; [reflexivity|].
  intros _ _. exists e.
  apply list_elem_of_fmap. by exists ([LField "payment_method"], e).
Qed.

Lemma create_order_rejects_payment_method_witness :
  ∃ es, @POST_api_orders strict (VDict (order_body None "Bitcoin")) one_order
        = (Raise (RequestValidationError es), one_order) ∧
        (∀ d, VDict (order_body None "Bitcoin") = VDict d →
              ∃ e, ([LField "body"; LField "payment_method"], e) ∈ es).
Proof.
  refine (proj1 (@create_order_rejects_payment_method strict
                   (VDict (order_body None "Bitcoin")) one_order _)).
  intros d pm Hd Hpm.
  assert (Hb : d !! "payment_method" = Some (VStr "Bitcoin")).
  { injection Hd as <-. vm_compute. exact eq_refl. }
  rewrite Hb in Hpm. injection Hpm as <-.
  apply (bool_decide_unpack _). vm_compute. exact I.
Defined.

(** ** Creating a catalog item *)

Lemma butcher_validate_title_error `{!LaxMode} (item : document) es :
  required "title" str_validator item = inl es →
  ∃ rest, ButcherItem.validate item = inl (es ++ rest).
Proof.
  intros Ht. unfold ButcherItem.validate. rewrite Ht.
  destruct (with_default "description" _ _ item);
    destruct (required "price_per_kg" _ item);
    destruct (with_default "available" _ _ item);
    destruct (with_default "image" _ _ item); simpl; eauto.
Qed.

Lemma required_str_none `{!LaxMode} name (d : document) :
  dict_get d name = VNone →
  ∃ e, required name str_validator d = inl [([LField name], e)].
Proof.
  unfold dict_get, required. destruct (d !! name) as [v|]; simpl.
  - intros ->. by eexists.
  - by eexists.
Qed.

Lemma required_insert_ne {A} name k v (val : validator A) (d : document) :
  name ≠ k → required name val (<[k := v]> d) = required name val d.
Proof. intros Hne. unfold required. by rewrite lookup_insert_ne. Qed.

Lemma with_default_insert_ne {A} name k v dflt (val : validator A)
  (d : document) :
  name ≠ k →
  with_default name dflt val (<[k := v]> d) = with_default name dflt val d.
Proof. intros Hne. unfold with_default. by rewrite lookup_insert_ne. Qed.

Lemma required_str_insert `{!LaxMode} name s (d : document) :
  required name str_validator (<[name := VStr s]> d) = inr s.
Proof. unfold required. by rewrite lookup_insert_eq. Qed.

(** The title may be any string: whether an item is accepted does not
    depend on which string its title is, the empty one included. *)
Lemma butcher_validate_any_title `{!LaxMode} (item : document) s s' x :
  ButcherItem.validate (<["title" := VStr s]> item) = inr x →
  ButcherItem.validate (<["title" := VStr s']> item)
  = inr {| ButcherItem.title := s';
           ButcherItem.description := ButcherItem.description x;
           ButcherItem.price_per_kg := ButcherItem.price_per_kg x;
           ButcherItem.available := ButcherItem.available x;
           ButcherItem.image := ButcherItem.image x |}.
Proof.
  unfold ButcherItem.validate.
  rewrite !required_str_insert, !required_insert_ne,
    !with_default_insert_ne by done.
  destruct (with_default "description" _ _ item); [done|].
  destruct (required "price_per_kg" _ item); [done|].
  destruct (with_default "available" _ _ item); [done|].
  destruct (with_default "image" _ _ item); [done|].
  by intros [= <-].
Qed.

(** C6 (as amended): the catalog create operation refuses, with the
    framework's validation error naming the title, any butcher item whose
    title is absent or null, and writes nothing.  It asks no more of a title than to
    be there: the empty string is accepted like any other string. *)
Theorem create_butcher_item_requires_title `{!LaxMode}
  (d item : document) (w : World) :
  d !! "item" = Some (VDict item) →
  dict_get item "title" = VNone →
  ∃ es e,
    POST_api_admin_butcher (VDict d) w = (Raise (RequestValidationError es), w) ∧
    ([LField "body"; LField "item"; LField "title"], e) ∈ es.
Proof.
  intros Hitem [e Ht]%required_str_none.
  destruct (butcher_validate_title_error item _ Ht) as [rest Hval].
  assert (Hr1 : ∃ rest',
             embedded_param (A := ButcherItem.t) "item" (VDict d)
             = inl (([LField "body"; LField "item"; LField "title"], e)
                      :: rest')).
  { unfold embedded_param. rewrite Hitem. simpl. rewrite Hval. simpl. eauto. }
  destruct Hr1 as [rest' Hr1].
  unfold POST_api_admin_butcher. rewrite Hr1. simpl.
  eexists _, e. split; [reflexivity|]. apply list_elem_of_here.
Qed.

Lemma create_butcher_item_requires_title_witness :
  ∃ es e,
    @POST_api_admin_butcher strict
      (VDict {[ "item" := VDict {[ "price_per_kg" := VFloat 12.5 ]};
                "auth" := VDict {[ "password" := VStr "admin123" ]} ]})
      empty_store
    = (Raise (RequestValidationError es), empty_store) ∧
    ([LField "body"; LField "item"; LField "title"], e) ∈ es.
Proof.
  apply (@create_butcher_item_requires_title strict
           {[ "item" := VDict {[ "price_per_kg" := VFloat 12.5 ]};
              "auth" := VDict {[ "password" := VStr "admin123" ]} ]}
           {[ "price_per_kg" := VFloat 12.5 ]} empty_store).
  - vm_compute. exact eq_refl.
  - vm_compute. exact eq_refl.
Defined.

(** C6, the claim as written fails: a butcher item whose title is the
    empty string is accepted and stored. *)
Lemma create_butcher_item_empty_title_counterexample :
  (@POST_api_admin_butcher strict (butcher_body "" "admin123") empty_store).1
  = Ok {[ "_id" := VStr "000000000000000000000000" ]} ∧
  (λ d : document, d !! "title") <$> stored "butcheritem" untitled_item
  = [Some (VStr "")].
Proof. split; vm_compute; exact eq_refl. Qed.

(** ** Listing the catalog *)

Lemma new_eq `{!LaxMode} `{!BaseModel A} (kwargs : document) (w : World) :
  new (A := A) kwargs w =
  (match model_validate _ kwargs with
   | inl es => Raise (ValidationError es)
   | inr a => Ok a
   end, w).
Proof. unfold new. by destruct (model_validate _ kwargs). Qed.

(** The loop of a list endpoint returns one instance per document, in
    order, when every document validates. *)
Lemma for_each_new_ok `{!LaxMode} `{!BaseModel A}
  (g : document → document) (docs : list document) (xs : list A) (w : World) :
  Forall2 (λ d x, model_validate _ (g d) = inr x) docs xs →
  for_each (λ d, new (g d)) docs w = (Ok xs, w).
Proof.
  induction 1 as [|d x docs xs Hd _ IH]; [done|].
  simpl. unfold bind at 1. rewrite new_eq, Hd.
  unfold bind at 1. by rewrite IH.
Qed.

(** And it raises, with nothing returned, as soon as one does not. *)
Lemma for_each_new_raise `{!LaxMode} `{!BaseModel A}
  (g : document → document) (docs : list document) (w : World) :
  Exists (λ d, ∃ es, model_validate (A := A) _ (g d) = inl es) docs →
  ∃ es, for_each (λ d, new (A := A) (g d)) docs w
        = (Raise (ValidationError es), w).
Proof.
  induction docs as [|d docs IH]; intros Hex; [by inversion Hex|].
  simpl. unfold bind at 1. rewrite new_eq.
  destruct (model_validate _ (g d)) as [es|x] eqn:Hd; [by eexists|].
  inversion Hex as [? ? [es Hes]|? ? Hex']; subst; [congruence|].
  destruct (IH Hex') as [es Hes]. unfold bind at 1. rewrite Hes. by eexists.
Qed.

Lemma foldl_insert_lookup (g : string → value) (keys : list string)
  (m : document) (k : string) :
  foldl (λ acc k, <[k := g k]> acc) m keys !! k =
  if decide (k ∈ keys) then Some (g k) else m !! k.
Proof.
  revert m. induction keys as [|k' keys IH]; intros m; cbn [foldl].
  - by rewrite decide_False by apply not_elem_of_nil.
  - rewrite IH. destruct (decide (k ∈ keys)) as [Hin|Hin].
    + by rewrite decide_True by (by right).
    + destruct (decide (k = k')) as [->|Hne].
      * rewrite lookup_insert_eq. by rewrite decide_True by left.
      * rewrite lookup_insert_ne by done.
        rewrite decide_False; [done|]. by intros [?|?]%elem_of_cons.
Qed.

(** The keyword arguments of a list endpoint hold the chosen keys and
    nothing else, each with what [d.get] gives. *)
Lemma project_lookup (d : document) (keys : list string) (k : string) :
  project d keys !! k =
  if decide (k ∈ keys) then Some (dict_get d k) else None.
Proof. unfold project. by rewrite foldl_insert_lookup, lookup_empty. Qed.

Lemma project_agree (d d' : document) (keys : list string) :
  (∀ k, k ∈ keys → d !! k = d' !! k) → project d keys = project d' keys.
Proof.
  intros Hag. apply map_eq; intros k. rewrite !project_lookup.
  case_decide; [|done]. unfold dict_get. by rewrite Hag.
Qed.

Lemma required_project {A} (val : validator A) (d : document) keys name :
  name ∈ keys →
  required name val (project d keys) = at_loc (LField name) (val (dict_get d name)).
Proof.
  intros Hin. unfold required. by rewrite project_lookup, decide_True.
Qed.

Lemma with_default_project {A} (val : validator A) dflt (d : document) keys name :
  name ∈ keys →
  with_default name dflt val (project d keys)
  = at_loc (LField name) (val (dict_get d name)).
Proof.
  intros Hin. unfold with_default. by rewrite project_lookup, decide_True.
Qed.

Lemma butcher_validate_inr `{!LaxMode} (d : document) (x : ButcherItem.t) :
  ButcherItem.validate d = inr x →
  required "title" str_validator d = inr (ButcherItem.title x) ∧
  with_default "description" None (optional str_validator) d
    = inr (ButcherItem.description x) ∧
  required "price_per_kg" (ge_float 0 float_validator) d
    = inr (ButcherItem.price_per_kg x) ∧
  with_default "available" true bool_validator d
    = inr (ButcherItem.available x) ∧
  with_default "image" None (optional str_validator) d
    = inr (ButcherItem.image x).
Proof.
  unfold ButcherItem.validate.
  destruct (required "title" _ d); [done|].
  destruct (with_default "description" _ _ d); [done|].
  destruct (required "price_per_kg" _ d); [done|].
  destruct (with_default "available" _ _ d); [done|].
  destruct (with_default "image" _ _ d); [done|].
  by intros [= <-].
Qed.

Lemma grocery_validate_inr `{!LaxMode} (d : document) (x : GroceryItem.t) :
  GroceryItem.validate d = inr x →
  required "title" str_validator d = inr (GroceryItem.title x) ∧
  with_default "description" None (optional str_validator) d
    = inr (GroceryItem.description x) ∧
  required "price" (ge_float 0 float_validator) d
    = inr (GroceryItem.price x) ∧
  with_default "available" true bool_validator d
    = inr (GroceryItem.available x) ∧
  with_default "image" None (optional str_validator) d
    = inr (GroceryItem.image x).
Proof.
  unfold GroceryItem.validate.
  destruct (required "title" _ d); [done|].
  destruct (with_default "description" _ _ d); [done|].
  destruct (required "price" _ d); [done|].
  destruct (with_default "available" _ _ d); [done|].
  destruct (with_default "image" _ _ d); [done|].
  by intros [= <-].
Qed.

Lemma accepts_inr {A} (r : errors + A) : accepts r = true → ∃ x, r = inr x.
Proof. destruct r; [done|eauto]. Qed.

Lemma Forall_accepts_Forall2 {A} (f : document → errors + A)
  (docs : list document) :
  Forall (λ d, accepts (f d) = true) docs →
  ∃ xs, Forall2 (λ d x, f d = inr x) docs xs.
Proof.
  induction 1 as [|d docs [x Hx]%accepts_inr _ [xs IH]].
  - by exists [].
  - exists (x :: xs). by constructor.
Qed.

Lemma get_documents_ok name w D :
  db w = Some D → get_documents name w = (Ok (collection name D), w).
Proof. intros HD. unfold get_documents. by rewrite HD. Qed.

Lemma optional_str_cases `{!LaxMode} name (v : value) (o : option string) :
  at_loc (LField name) (optional str_validator v) = inr o →
  (∀ s, v = VStr s → o = Some s) ∧ (v = VNone → o = None).
Proof.
  intros Hv%at_loc_inr. split.
  - intros s ->. simpl in Hv. congruence.
  - intros ->. simpl in Hv. congruence.
Qed.

Lemma dict_get_some (d : document) k v : d !! k = Some v → dict_get d k = v.
Proof. unfold dict_get. by intros ->. Qed.

Ltac field_in := repeat first [apply list_elem_of_here | apply list_elem_of_further].

Lemma butcher_public_record `{!LaxMode} (d : document) (x : ButcherItem.t) :
  ButcherItem.validate
    (project d ["title"; "description"; "price_per_kg"; "available"; "image"])
  = inr x →
  public_record "price_per_kg" d (to_json <$> ButcherItem.dump x).
Proof.
  intros (Ht & Hd & Hp & Ha & Hi)%butcher_validate_inr.
  rewrite required_project in Ht by field_in.
  rewrite required_project in Hp by field_in.
  rewrite with_default_project in Hd by field_in.
  rewrite with_default_project in Ha by field_in.
  rewrite with_default_project in Hi by field_in.
  destruct x as [t de p a i]; simpl in *.
  apply optional_str_cases in Hd as [Hd1 Hd2], Hi as [Hi1 Hi2].
  split_and!.
  - rewrite dom_fmap_L. unfold ButcherItem.dump; simpl.
    rewrite !dom_insert_L, dom_singleton_L. set_solver.
  - by rewrite lookup_fmap.
  - intros s Hs. rewrite (dict_get_some _ _ _ Hs) in Ht.
    simpl in Ht. injection Ht as <-. by rewrite lookup_fmap.
  - intros f Hf. rewrite (dict_get_some _ _ _ Hf) in Hp.
    apply at_loc_inr in Hp. unfold ge_float in Hp; simpl in Hp.
    destruct (PrimFloat.leb 0 f); [|done]. injection Hp as <-.
    by rewrite lookup_fmap.
  - intros b Hb. rewrite (dict_get_some _ _ _ Hb) in Ha.
    simpl in Ha. injection Ha as <-. by rewrite lookup_fmap.
  - intros k [-> | ->]; split.
    + intros s Hs. rewrite lookup_fmap.
      by rewrite (Hd1 s (dict_get_some _ _ _ Hs)).
    + intros Hn. rewrite lookup_fmap. by rewrite (Hd2 Hn).
    + intros s Hs. rewrite lookup_fmap.
      by rewrite (Hi1 s (dict_get_some _ _ _ Hs)).
    + intros Hn. rewrite lookup_fmap. by rewrite (Hi2 Hn).
Qed.

Lemma grocery_public_record `{!LaxMode} (d : document) (x : GroceryItem.t) :
  GroceryItem.validate
    (project d ["title"; "description"; "price"; "available"; "image"])
  = inr x →
  public_record "price" d (to_json <$> GroceryItem.dump x).
Proof.
  intros (Ht & Hd & Hp & Ha & Hi)%grocery_validate_inr.
  rewrite required_project in Ht by field_in.
  rewrite required_project in Hp by field_in.
  rewrite with_default_project in Hd by field_in.
  rewrite with_default_project in Ha by field_in.
  rewrite with_default_project in Hi by field_in.
  destruct x as [t de p a i]; simpl in *.
  apply optional_str_cases in Hd as [Hd1 Hd2], Hi as [Hi1 Hi2].
  split_and!.
  - rewrite dom_fmap_L. unfold GroceryItem.dump; simpl.
    rewrite !dom_insert_L, dom_singleton_L. set_solver.
  - by rewrite lookup_fmap.
  - intros s Hs. rewrite (dict_get_some _ _ _ Hs) in Ht.
    simpl in Ht. injection Ht as <-. by rewrite lookup_fmap.
  - intros f Hf. rewrite (dict_get_some _ _ _ Hf) in Hp.
    apply at_loc_inr in Hp. unfold ge_float in Hp; simpl in Hp.
    destruct (PrimFloat.leb 0 f); [|done]. injection Hp as <-.
    by rewrite lookup_fmap.
  - intros b Hb. rewrite (dict_get_some _ _ _ Hb) in Ha.
    simpl in Ha. injection Ha as <-. by rewrite lookup_fmap.
  - intros k [-> | ->]; split.
    + intros s Hs. rewrite lookup_fmap.
      by rewrite (Hd1 s (dict_get_some _ _ _ Hs)).
    + intros Hn. rewrite lookup_fmap. by rewrite (Hd2 Hn).
    + intros s Hs. rewrite lookup_fmap.
      by rewrite (Hi1 s (dict_get_some _ _ _ Hs)).
    + intros Hn. rewrite lookup_fmap. by rewrite (Hi2 Hn).
Qed.

(** *** The catalog of a reachable state *)

Lemma for_each_new_state `{!LaxMode} `{!BaseModel A}
  (g : document → document) (docs : list document) (w : World) :
  (for_each (λ d, new (A := A) (g d)) docs w).2 = w.
Proof.
  induction docs as [|d docs IH]; [done|].
  simpl. unfold bind at 1. rewrite new_eq.
  destruct (model_validate _ (g d)); [done|].
  unfold bind at 1.
  destruct (for_each _ docs w) as [[ys|e] w']; simpl in *; by subst.
Qed.

Lemma GET_api_butcher_state `{!LaxMode} (w : World) :
  (GET_api_butcher w).2 = w.
Proof.
  unfold GET_api_butcher, list_butcher_items, bind at 1, bind at 1,
    get_documents.
  destruct (db w) as [D|]; [|done].
  pose proof (for_each_new_state (A := ButcherItem.t)
                (λ d, project d ["title"; "description"; "price_per_kg";
                                 "available"; "image"])
                (collection "butcheritem" D) w) as Hw.
  destruct (for_each _ _ w) as [[ys|e] w']; simpl in *; by subst.
Qed.

Lemma GET_api_grocery_state `{!LaxMode} (w : World) :
  (GET_api_grocery w).2 = w.
Proof.
  unfold GET_api_grocery, list_grocery_items, bind at 1, bind at 1,
    get_documents.
  destruct (db w) as [D|]; [|done].
  pose proof (for_each_new_state (A := GroceryItem.t)
                (λ d, project d ["title"; "description"; "price";
                                 "available"; "image"])
                (collection "groceryitem" D) w) as Hw.
  destruct (for_each _ _ w) as [[ys|e] w']; simpl in *; by subst.
Qed.

Lemma stored_insert name n docs env cs nxt :
  stored name {| environ := env;
                 db := Some {| collections := <[n := docs]> cs;
                               next_oid := nxt |} |}
  = if decide (n = name) then docs else default [] (cs !! name).
Proof.
  unfold stored, collection; simpl. rewrite lookup_insert. by case_decide.
Qed.

(** [create_document] adds one document to its own collection, or
    nothing, and leaves the other collections alone. *)
Lemma create_document_stored `{!BaseModel A} name' name (data : A) w :
  stored name' (create_document name data w).2 = stored name' w ∨
  (name' = name ∧
   ∃ oid, stored name' (create_document name data w).2
          = stored name' w ++ [<["_id" := VObjectId oid]> (model_dump data)]).
Proof.
  unfold create_document. destruct (db w) as [D|] eqn:HD; [|by left].
  simpl. rewrite stored_insert. case_decide as Hn; [right|left].
  - subst. split; [done|]. eexists. unfold stored. by rewrite HD.
  - unfold stored. by rewrite HD.
Qed.

Lemma create_butcher_item_state item auth w :
  (create_butcher_item item auth w).2 = w ∨
  (create_butcher_item item auth w).2
  = (create_document "butcheritem" item w).2.
Proof.
  unfold create_butcher_item, bind. rewrite verify_admin_eq.
  case_decide; [right|by left].
  by destruct (create_document _ _ w) as [[?|?] ?].
Qed.

Lemma create_grocery_item_state item auth w :
  (create_grocery_item item auth w).2 = w ∨
  (create_grocery_item item auth w).2
  = (create_document "groceryitem" item w).2.
Proof.
  unfold create_grocery_item, bind. rewrite verify_admin_eq.
  case_decide; [right|by left].
  by destruct (create_document _ _ w) as [[?|?] ?].
Qed.

Lemma create_order_state order w :
  (create_order order w).2 = w ∨
  (create_order order w).2 = (create_document "order" order w).2.
Proof.
  unfold create_order, bind, raise_if.
  case_bool_decide; [by left|right].
  unfold ret at 1. by destruct (create_document _ _ w) as [[?|?] ?].
Qed.

Lemma update_order_status_other name order_id body w :
  name ≠ "order" →
  stored name (update_order_status order_id body w).2 = stored name w.
Proof.
  intros Hne.
  destruct (decide (UpdateStatusRequest.password body = configured_secret w))
    as [Hpw|Hpw]; [|by rewrite update_order_status_unauthorized].
  destruct (decide (UpdateStatusRequest.status body ∈ labels)) as [Hst|Hst];
    [|by rewrite update_order_status_bad_label].
  rewrite update_order_status_authorized by done.
  destruct (db w) as [D|] eqn:HD; [|done].
  destruct (oid_of_string order_id) as [oid|]; [|done].
  destruct (update_first _ _ _) as [docs'|]; [|done].
  simpl. unfold set_collection. rewrite HD, stored_insert.
  rewrite decide_False by done. unfold stored. by rewrite HD.
Qed.

Lemma embedded_param_inr `{!LaxMode} `{!BaseModel A} name body (a : A) :
  embedded_param name body = inr a → ∃ d, model_validate _ d = inr a.
Proof.
  unfold embedded_param. destruct body as [| | | | | | |d]; try done.
  destruct (d !! name) as [[| | | | | | |d']|]; try done.
  intros Ha%at_loc_inr%at_loc_inr. eauto.
Qed.

Lemma ge_float_inr bound (val : validator float) v f :
  ge_float bound val v = inr f → PrimFloat.leb bound f = true.
Proof.
  unfold ge_float. destruct (val v) as [|f']; [done|].
  destruct (PrimFloat.leb bound f') eqn:Hle; [|done]. by intros [= <-].
Qed.

Lemma required_ge_float_inr name bound (val : validator float)
  (d : document) f :
  required name (ge_float bound val) d = inr f →
  PrimFloat.leb bound f = true.
Proof.
  unfold required. destruct (d !! name) as [v|]; [|done].
  by intros Hv%at_loc_inr%ge_float_inr.
Qed.

Lemma optional_str_dump `{!LaxMode} (o : option string) :
  optional str_validator (dump_opt_str o) = inr o.
Proof. by destruct o. Qed.

(** What [create_document] stores for a validated item reads back as that
    item. *)
Lemma butcher_dump_valid `{!LaxMode} (x : ButcherItem.t) (o : value) :
  PrimFloat.leb 0 (ButcherItem.price_per_kg x) = true →
  ButcherItem.validate
    (project (<["_id" := o]> (ButcherItem.dump x))
       ["title"; "description"; "price_per_kg"; "available"; "image"])
  = inr x.
Proof.
  intros Hp. unfold ButcherItem.validate.
  rewrite !required_project, !with_default_project by field_in.
  destruct x as [t de p a i]; simpl in Hp.
  change (dict_get _ "title") with (VStr t).
  change (dict_get _ "description") with (dump_opt_str de).
  change (dict_get _ "price_per_kg") with (VFloat p).
  change (dict_get _ "available") with (VBool a).
  change (dict_get _ "image") with (dump_opt_str i).
  rewrite !optional_str_dump. unfold ge_float; simpl. by rewrite Hp.
Qed.

Lemma grocery_dump_valid `{!LaxMode} (x : GroceryItem.t) (o : value) :
  PrimFloat.leb 0 (GroceryItem.price x) = true →
  GroceryItem.validate
    (project (<["_id" := o]> (GroceryItem.dump x))
       ["title"; "description"; "price"; "available"; "image"])
  = inr x.
Proof.
  intros Hp. unfold GroceryItem.validate.
  rewrite !required_project, !with_default_project by field_in.
  destruct x as [t de p a i]; simpl in Hp.
  change (dict_get _ "title") with (VStr t).
  change (dict_get _ "description") with (dump_opt_str de).
  change (dict_get _ "price") with (VFloat p).
  change (dict_get _ "available") with (VBool a).
  change (dict_get _ "image") with (dump_opt_str i).
  rewrite !optional_str_dump. unfold ge_float; simpl. by rewrite Hp.
Qed.

Lemma POST_api_admin_butcher_valid `{!LaxMode} body w :
  catalog_valid w → catalog_valid (POST_api_admin_butcher body w).2.
Proof.
  intros [Hb Hg]. unfold POST_api_admin_butcher.
  destruct (embedded_param "item" body) as [|item] eqn:Hitem; [done|].
  destruct (embedded_param "auth" body) as [|auth]; [done|].
  destruct (create_butcher_item_state item auth w) as [->| ->]; [done|].
  split.
  - destruct (create_document_stored "butcheritem" "butcheritem" item w)
      as [-> | [_ [oid ->]]]; [done|].
    apply Forall_app. split; [done|]. apply Forall_singleton.
    apply embedded_param_inr in Hitem as [d Hd]. simpl in Hd.
    apply butcher_validate_inr in Hd as (_ & _ & Hp & _).
    apply required_ge_float_inr in Hp.
    unfold valid_butcher. simpl. by rewrite butcher_dump_valid.
  - by destruct (create_document_stored "groceryitem" "butcheritem" item w)
      as [-> | [? _]].
Qed.

Lemma POST_api_admin_grocery_valid `{!LaxMode} body w :
  catalog_valid w → catalog_valid (POST_api_admin_grocery body w).2.
Proof.
  intros [Hb Hg]. unfold POST_api_admin_grocery.
  destruct (embedded_param "item" body) as [|item] eqn:Hitem; [done|].
  destruct (embedded_param "auth" body) as [|auth]; [done|].
  destruct (create_grocery_item_state item auth w) as [->| ->]; [done|].
  split.
  - by destruct (create_document_stored "butcheritem" "groceryitem" item w)
      as [-> | [? _]].
  - destruct (create_document_stored "groceryitem" "groceryitem" item w)
      as [-> | [_ [oid ->]]]; [done|].
    apply Forall_app. split; [done|]. apply Forall_singleton.
    apply embedded_param_inr in Hitem as [d Hd]. simpl in Hd.
    apply grocery_validate_inr in Hd as (_ & _ & Hp & _).
    apply required_ge_float_inr in Hp.
    unfold valid_grocery. simpl. by rewrite grocery_dump_valid.
Qed.

Lemma POST_api_orders_valid `{!LaxMode} body w :
  catalog_valid w → catalog_valid (POST_api_orders body w).2.
Proof.
  intros [Hb Hg]. unfold POST_api_orders.
  destruct (single_param body) as [|order]; [done|].
  destruct (create_order_state order w) as [->| ->]; [done|].
  split.
  - by destruct (create_document_stored "butcheritem" "order" order w)
      as [-> | [? _]].
  - by destruct (create_document_stored "groceryitem" "order" order w)
      as [-> | [? _]].
Qed.

Lemma POST_api_admin_orders_status_valid `{!LaxMode} order_id body w :
  catalog_valid w →
  catalog_valid (POST_api_admin_orders_status order_id body w).2.
Proof.
  intros [Hb Hg]. unfold POST_api_admin_orders_status.
  destruct (single_param body) as [|req]; [done|].
  split; by rewrite update_order_status_other.
Qed.

(** Every request keeps the catalog readable, so every reachable state
    has a readable catalog. *)
Lemma reachable_catalog_valid `{!LaxMode} (w : World) :
  reachable w → catalog_valid w.
Proof.
  induction 1 as [w Hb Hg|r w _ IH].
  - split; [rewrite Hb|rewrite Hg]; constructor.
  - destruct r; simpl.
    + by rewrite GET_api_butcher_state.
    + by rewrite GET_api_grocery_state.
    + by apply POST_api_admin_butcher_valid.
    + by apply POST_api_admin_grocery_valid.
    + by apply POST_api_orders_valid.
    + by apply POST_api_admin_orders_status_valid.
Qed.

(** C7 (as amended): when every stored document of a kind passes the
    kind's schema on the five fields the list endpoint reads, as it does
    in every state the service reaches from an empty catalog, the public
    listing answers with one record per stored document, in storage
    order, and each record holds exactly title, description, available,
    image and the kind's price field (price_per_kg for butcher items,
    price for grocery items) with the stored values: the store's id and
    every other stored field are left out, and nothing is written.  When
    some stored document does not pass, the listing raises and returns no
    record at all. *)
Theorem public_list_exact_fields `{!LaxMode} (w : World) (D : Database) :
  db w = Some D →
  (reachable w →
   Forall valid_butcher (collection "butcheritem" D) ∧
   Forall valid_grocery (collection "groceryitem" D)) ∧
  (Forall valid_butcher (collection "butcheritem" D) →
   ∃ rs, GET_api_butcher w = (Ok rs, w) ∧
         Forall2 (public_record "price_per_kg") (collection "butcheritem" D) rs) ∧
  (Forall valid_grocery (collection "groceryitem" D) →
   ∃ rs, GET_api_grocery w = (Ok rs, w) ∧
         Forall2 (public_record "price") (collection "groceryitem" D) rs) ∧
  (¬ Forall valid_butcher (collection "butcheritem" D) →
   ∃ es, GET_api_butcher w = (Raise (ValidationError es), w)) ∧
  (¬ Forall valid_grocery (collection "groceryitem" D) →
   ∃ es, GET_api_grocery w = (Raise (ValidationError es), w)).
Proof.
  intros HD. split_and!.
  - intros Hr%reachable_catalog_valid. unfold catalog_valid, stored in Hr.
    by rewrite HD in Hr.
  - intros [xs Hxs]%Forall_accepts_Forall2.
    exists ((λ x, to_json <$> ButcherItem.dump x) <$> xs). split.
    + unfold GET_api_butcher, list_butcher_items, bind at 1, bind at 1.
      rewrite (get_documents_ok _ _ _ HD).
      by rewrite (for_each_new_ok (A := ButcherItem.t) _ _ xs).
    + apply Forall2_fmap_r.
      eapply Forall2_impl; [exact Hxs|]. apply butcher_public_record.
  - intros [xs Hxs]%Forall_accepts_Forall2.
    exists ((λ x, to_json <$> GroceryItem.dump x) <$> xs). split.
    + unfold GET_api_grocery, list_grocery_items, bind at 1, bind at 1.
      rewrite (get_documents_ok _ _ _ HD).
      by rewrite (for_each_new_ok (A := GroceryItem.t) _ _ xs).
    + apply Forall2_fmap_r.
      eapply Forall2_impl; [exact Hxs|]. apply grocery_public_record.
  - intros Hn.
    apply not_Forall_Exists in Hn; [|intros d; unfold valid_butcher; apply _].
    destruct (for_each_new_raise (A := ButcherItem.t)
                (λ d, project d ["title"; "description"; "price_per_kg";
                                 "available"; "image"])
                (collection "butcheritem" D) w) as [es Hes].
    { eapply Exists_impl; [exact Hn|]. intros d Hd. simpl in *.
      unfold valid_butcher in Hd.
      destruct (ButcherItem.validate _) as [es|x]; [by eexists|].
      by destruct Hd. }
    exists es.
    unfold GET_api_butcher, list_butcher_items, bind at 1, bind at 1.
    by rewrite (get_documents_ok _ _ _ HD), Hes.
  - intros Hn.
    apply not_Forall_Exists in Hn; [|intros d; unfold valid_grocery; apply _].
    destruct (for_each_new_raise (A := GroceryItem.t)
                (λ d, project d ["title"; "description"; "price";
                                 "available"; "image"])
                (collection "groceryitem" D) w) as [es Hes].
    { eapply Exists_impl; [exact Hn|]. intros d Hd. simpl in *.
      unfold valid_grocery in Hd.
      destruct (GroceryItem.validate _) as [es|x]; [by eexists|].
      by destruct Hd. }
    exists es.
    unfold GET_api_grocery, list_grocery_items, bind at 1, bind at 1.
    by rewrite (get_documents_ok _ _ _ HD), Hes.
Qed.

Lemma public_list_exact_fields_witness :
  (∃ rs, @GET_api_butcher strict (catalog [ribeye] [milk])
         = (Ok rs, catalog [ribeye] [milk]) ∧
         Forall2 (public_record "price_per_kg")
           (collection "butcheritem" (catalog_db [ribeye] [milk])) rs) ∧
  (∃ rs, @GET_api_grocery strict (catalog [ribeye] [milk])
         = (Ok rs, catalog [ribeye] [milk]) ∧
         Forall2 (public_record "price")
           (collection "groceryitem" (catalog_db [ribeye] [milk])) rs).
Proof.
  pose proof (@public_list_exact_fields strict (catalog [ribeye] [milk])
                (catalog_db [ribeye] [milk]) eq_refl) as (_ & Hb & Hg & _).
  split.
  - apply Hb. unfold valid_butcher.
    apply (bool_decide_unpack _). vm_compute. exact I.
  - apply Hg. unfold valid_grocery.
    apply (bool_decide_unpack _). vm_compute. exact I.
Defined.

(** C7, the claim as written fails: a grocery document that the schema
    accepts, stored without its available field, gets no record from the
    public listing, and neither does the well-formed document before it:
    the listing raises for the request as a whole. *)
Lemma public_list_invalid_document_counterexample :
  accepts (@GroceryItem.validate strict eggs) = true ∧
  @GET_api_grocery strict (catalog [ribeye] [milk; eggs])
  = (Raise (ValidationError [([LField "available"], type_error)]),
     catalog [ribeye] [milk; eggs]).
Proof. split; vm_compute; exact eq_refl. Qed.

Lemma required_none_fails {A} `{!LaxMode} name (val : validator A)
  (d : document) keys :
  name ∈ keys → val VNone = fail type_error →
  dict_get d name = VNone →
  ∃ es, required name val (project d keys) = inl es.
Proof.
  intros Hin Hval Hn. rewrite required_project, Hn, Hval by done. by eexists.
Qed.

Lemma butcher_missing_required_fails `{!LaxMode} (d : document) :
  dict_get d "title" = VNone ∨ dict_get d "price_per_kg" = VNone →
  ∃ es, ButcherItem.validate
          (project d ["title"; "description"; "price_per_kg";
                      "available"; "image"]) = inl es.
Proof.
  intros Hmiss.
  destruct (ButcherItem.validate _) as [es|x] eqn:Hv; [by eexists|].
  apply butcher_validate_inr in Hv as (Ht & _ & Hp & _).
  destruct Hmiss as [Hn|Hn].
  - destruct (required_none_fails "title" str_validator d
                ["title"; "description"; "price_per_kg"; "available"; "image"])
      as [es Hes]; [field_in|done..|congruence].
  - destruct (required_none_fails "price_per_kg" (ge_float 0 float_validator) d
                ["title"; "description"; "price_per_kg"; "available"; "image"])
      as [es Hes]; [field_in|done..|congruence].
Qed.

Lemma grocery_missing_required_fails `{!LaxMode} (d : document) :
  dict_get d "title" = VNone ∨ dict_get d "price" = VNone →
  ∃ es, GroceryItem.validate
          (project d ["title"; "description"; "price";
                      "available"; "image"]) = inl es.
Proof.
  intros Hmiss.
  destruct (GroceryItem.validate _) as [es|x] eqn:Hv; [by eexists|].
  apply grocery_validate_inr in Hv as (Ht & _ & Hp & _).
  destruct Hmiss as [Hn|Hn].
  - destruct (required_none_fails "title" str_validator d
                ["title"; "description"; "price"; "available"; "image"])
      as [es Hes]; [field_in|done..|congruence].
  - destruct (required_none_fails "price" (ge_float 0 float_validator) d
                ["title"; "description"; "price"; "available"; "image"])
      as [es Hes]; [field_in|done..|congruence].
Qed.

(** C10: one stored document of a kind without its title or its price
    (absent, or stored as null) makes the kind's public listing raise
    pydantic's [ValidationError] for the request as a whole: no list is
    returned, the well-formed documents included, and nothing is
    written. *)
Theorem public_list_fails_on_missing_required `{!LaxMode}
  (w : World) (D : Database) (d : document) :
  db w = Some D →
  (d ∈ collection "butcheritem" D →
   dict_get d "title" = VNone ∨ dict_get d "price_per_kg" = VNone →
   ∃ es, GET_api_butcher w = (Raise (ValidationError es), w) ∧
         http_status (ValidationError es) = Some 500%Z) ∧
  (d ∈ collection "groceryitem" D →
   dict_get d "title" = VNone ∨ dict_get d "price" = VNone →
   ∃ es, GET_api_grocery w = (Raise (ValidationError es), w) ∧
         http_status (ValidationError es) = Some 500%Z).
Proof.
  intros HD. split.
  - intros Hin Hmiss.
    destruct (for_each_new_raise (A := ButcherItem.t)
                (λ d, project d ["title"; "description"; "price_per_kg";
                                 "available"; "image"])
                (collection "butcheritem" D) w) as [es Hes].
    { apply Exists_exists. exists d. split; [done|].
      by apply butcher_missing_required_fails. }
    exists es. split; [|done].
    unfold GET_api_butcher, list_butcher_items, bind at 1, bind at 1.
    by rewrite (get_documents_ok _ _ _ HD), Hes.
  - intros Hin Hmiss.
    destruct (for_each_new_raise (A := GroceryItem.t)
                (λ d, project d ["title"; "description"; "price";
                                 "available"; "image"])
                (collection "groceryitem" D) w) as [es Hes].
    { apply Exists_exists. exists d. split; [done|].
      by apply grocery_missing_required_fails. }
    exists es. split; [|done].
    unfold GET_api_grocery, list_grocery_items, bind at 1, bind at 1.
    by rewrite (get_documents_ok _ _ _ HD), Hes.
Qed.

Lemma public_list_fails_on_missing_required_witness :
  ∃ es, @GET_api_butcher strict
          (catalog [ribeye; {[ "price_per_kg" := VFloat 9.5 ]}] [milk])
        = (Raise (ValidationError es),
           catalog [ribeye; {[ "price_per_kg" := VFloat 9.5 ]}] [milk]) ∧
        http_status (ValidationError es) = Some 500%Z.
Proof.
  refine (proj1 (@public_list_fails_on_missing_required strict
                   (catalog [ribeye; {[ "price_per_kg" := VFloat 9.5 ]}] [milk])
                   (catalog_db [ribeye; {[ "price_per_kg" := VFloat 9.5 ]}] [milk])
                   {[ "price_per_kg" := VFloat 9.5 ]} eq_refl) _ _).
  - apply list_elem_of_further, list_elem_of_here.
  - left. vm_compute. exact eq_refl.
Defined.

(** * Further properties *)

(** ** Creating catalog items *)

(** X1: both catalog create endpoints check the admin password before
    they reach the store: with a password other than the configured
    secret they raise the 401 error and the state is what it was,
    whatever the item is. *)
Theorem catalog_create_requires_admin
  (butcher : ButcherItem.t) (grocery : GroceryItem.t)
  (auth : AdminLoginRequest.t) (w : World) :
  AdminLoginRequest.password auth ≠ configured_secret w →
  create_butcher_item butcher auth w =
    (Raise (HTTPException 401 "Invalid admin password"), w) ∧
  create_grocery_item grocery auth w =
    (Raise (HTTPException 401 "Invalid admin password"), w).
Proof.
  intros Hpw.
  unfold create_butcher_item, create_grocery_item, bind.
  rewrite verify_admin_eq. by rewrite decide_False.
Qed.

Lemma catalog_create_requires_admin_witness :
  create_butcher_item
    {| ButcherItem.title := "Ribeye"; ButcherItem.description := None;
       ButcherItem.price_per_kg := 42.5; ButcherItem.available := true;
       ButcherItem.image := None |}
    {| AdminLoginRequest.password := "letmein" |} empty_store =
    (Raise (HTTPException 401 "Invalid admin password"), empty_store) ∧
  create_grocery_item
    {| GroceryItem.title := "Milk"; GroceryItem.description := None;
       GroceryItem.price := 3.5; GroceryItem.available := true;
       GroceryItem.image := None |}
    {| AdminLoginRequest.password := "letmein" |} empty_store =
    (Raise (HTTPException 401 "Invalid admin password"), empty_store).
Proof.
  apply (catalog_create_requires_admin _ _
           {| AdminLoginRequest.password := "letmein" |} empty_store).
  apply (bool_decide_unpack _). vm_compute. exact I.
Defined.

Lemma required_ge_float_below name bound (d : document) `{!LaxMode} f :
  d !! name = Some (VFloat f) → PrimFloat.leb bound f = false →
  required name (ge_float bound float_validator) d
  = inl [([LField name], greater_than_equal)].
Proof.
  intros Hd Hf. unfold required, ge_float. rewrite Hd. simpl. by rewrite Hf.
Qed.

Lemma butcher_price_error `{!LaxMode} (item : document) f :
  item !! "price_per_kg" = Some (VFloat f) → PrimFloat.leb 0 f = false →
  ∃ es, ButcherItem.validate item = inl es ∧
        ([LField "price_per_kg"], greater_than_equal) ∈ es.
Proof.
  intros Hd Hf. unfold ButcherItem.validate.
  rewrite (required_ge_float_below _ _ _ _ Hd Hf).
  destruct (required "title" _ item);
    destruct (with_default "description" _ _ item);
    destruct (with_default "available" _ _ item);
    destruct (with_default "image" _ _ item); simpl;
    eexists; (split; [reflexivity|]);
    rewrite ?elem_of_app, ?elem_of_cons; auto 10.
Qed.

Lemma grocery_price_error `{!LaxMode} (item : document) f :
  item !! "price" = Some (VFloat f) → PrimFloat.leb 0 f = false →
  ∃ es, GroceryItem.validate item = inl es ∧
        ([LField "price"], greater_than_equal) ∈ es.
Proof.
  intros Hd Hf. unfold GroceryItem.validate.
  rewrite (required_ge_float_below _ _ _ _ Hd Hf).
  destruct (required "title" _ item);
    destruct (with_default "description" _ _ item);
    destruct (with_default "available" _ _ item);
    destruct (with_default "image" _ _ item); simpl;
    eexists; (split; [reflexivity|]);
    rewrite ?elem_of_app, ?elem_of_cons; auto 10.
Qed.

Lemma embedded_item_error `{!LaxMode} `{!BaseModel A} (d item : document)
  es loc e :
  d !! "item" = Some (VDict item) →
  model_validate (A := A) _ item = inl es → (loc, e) ∈ es →
  ∃ es', embedded_param (A := A) "item" (VDict d) = inl es' ∧
         (LField "body" :: LField "item" :: loc, e) ∈ es'.
Proof.
  intros Hitem Hval Hin. unfold embedded_param. rewrite Hitem. simpl.
  rewrite Hval. simpl. eexists. split; [reflexivity|].
  apply list_elem_of_fmap. exists (LField "item" :: loc, e). split; [done|].
  apply list_elem_of_fmap. by exists (loc, e).
Qed.

(** X2: a price below zero, or one that is not a number, is refused on
    create for both kinds: the framework raises its
    [RequestValidationError] with the greater-than-or-equal error on the
    price field, before the endpoint runs and so before the password is
    looked at, and nothing is written. *)
Theorem catalog_create_rejects_negative_price `{!LaxMode}
  (d item : document) (f : float) (w : World) :
  d !! "item" = Some (VDict item) →
  PrimFloat.leb 0 f = false →
  (item !! "price_per_kg" = Some (VFloat f) →
   ∃ es, POST_api_admin_butcher (VDict d) w
         = (Raise (RequestValidationError es), w) ∧
         ([LField "body"; LField "item"; LField "price_per_kg"],
          greater_than_equal) ∈ es) ∧
  (item !! "price" = Some (VFloat f) →
   ∃ es, POST_api_admin_grocery (VDict d) w
         = (Raise (RequestValidationError es), w) ∧
         ([LField "body"; LField "item"; LField "price"],
          greater_than_equal) ∈ es).
Proof.
  intros Hitem Hf. split; intros Hp.
  - destruct (butcher_price_error item f Hp Hf) as (es & Hval & Hin).
    change (model_validate (A := ButcherItem.t) _ item = inl es) in Hval.
    destruct (embedded_item_error (A := ButcherItem.t) d item es _ _
                Hitem Hval Hin)
      as (es' & Hr1 & Hin').
    unfold POST_api_admin_butcher. rewrite Hr1. simpl.
    eexists. split; [reflexivity|]. apply elem_of_app. by left.
  - destruct (grocery_price_error item f Hp Hf) as (es & Hval & Hin).
    change (model_validate (A := GroceryItem.t) _ item = inl es) in Hval.
    destruct (embedded_item_error (A := GroceryItem.t) d item es _ _
                Hitem Hval Hin)
      as (es' & Hr1 & Hin').
    unfold POST_api_admin_grocery. rewrite Hr1. simpl.
    eexists. split; [reflexivity|]. apply elem_of_app. by left.
Qed.

Lemma catalog_create_rejects_negative_price_witness :
  ∃ es, @POST_api_admin_butcher strict
          (VDict {[ "item" := VDict {[ "title" := VStr "Ribeye";
                                       "price_per_kg" := VFloat (-1) ]};
                    "auth" := VDict {[ "password" := VStr "admin123" ]} ]})
          empty_store
        = (Raise (RequestValidationError es), empty_store) ∧
        ([LField "body"; LField "item"; LField "price_per_kg"],
         greater_than_equal) ∈ es.
Proof.
  refine (proj1 (@catalog_create_rejects_negative_price strict
                   {[ "item" := VDict {[ "title" := VStr "Ribeye";
                                         "price_per_kg" := VFloat (-1) ]};
                      "auth" := VDict {[ "password" := VStr "admin123" ]} ]}
                   {[ "title" := VStr "Ribeye"; "price_per_kg" := VFloat (-1) ]}
                   (-1)%float empty_store _ _) _).
  - vm_compute. exact eq_refl.
  - vm_compute. exact eq_refl.
  - vm_compute. exact eq_refl.
Defined.

(** ** What the order schema checks and what it does not *)

Lemma order_validate_fields `{!LaxMode} (d : document) (x : Order.t) :
  Order.validate d = inr x →
  required "customer_name" str_validator d = inr (Order.customer_name x) ∧
  required "phone" str_validator d = inr (Order.phone x) ∧
  required "address" str_validator d = inr (Order.address x) ∧
  required "payment_method"
    (literal ["Cash on Delivery"; "Card on Delivery"]) d
    = inr (Order.payment_method x) ∧
  with_default "status" "Pending"
    (literal ["Pending"; "Confirmed"; "Ready for Pickup"; "Delivered"]) d
    = inr (Order.status x) ∧
  required "items" (list_of (model OrderItem.validate)) d
    = inr (Order.items x) ∧
  required "total" (ge_float 0 float_validator) d = inr (Order.total x).
Proof.
  unfold Order.validate.
  destruct (required "customer_name" _ d); [done|].
  destruct (required "phone" _ d); [done|].
  destruct (required "address" _ d); [done|].
  destruct (required "payment_method" _ d); [done|].
  destruct (with_default "status" _ _ d); [done|].
  destruct (required "items" _ d); [done|].
  destruct (required "total" _ d); [done|].
  by intros [= <-].
Qed.

Lemma order_item_validate_fields `{!LaxMode} (d : document) (x : OrderItem.t) :
  OrderItem.validate d = inr x →
  required "type" (literal ["butcher"; "grocery"]) d = inr (OrderItem.type x) ∧
  required "item_id" str_validator d = inr (OrderItem.item_id x) ∧
  required "title" str_validator d = inr (OrderItem.title x) ∧
  required "unit_price" (ge_float 0 float_validator) d
    = inr (OrderItem.unit_price x) ∧
  with_default "quantity" None (optional (ge_int 1 int_validator)) d
    = inr (OrderItem.quantity x) ∧
  with_default "weight_kg" None (optional (ge_float 0.1 float_validator)) d
    = inr (OrderItem.weight_kg x) ∧
  required "subtotal" (ge_float 0 float_validator) d
    = inr (OrderItem.subtotal x).
Proof.
  unfold OrderItem.validate.
  destruct (required "type" _ d); [done|].
  destruct (required "item_id" _ d); [done|].
  destruct (required "title" _ d); [done|].
  destruct (required "unit_price" _ d); [done|].
  destruct (with_default "quantity" _ _ d); [done|].
  destruct (with_default "weight_kg" _ _ d); [done|].
  destruct (required "subtotal" _ d); [done|].
  by intros [= <-].
Qed.

Lemma validate_items_fail {A} (val : validator A) (l : list value)
  (i0 i : nat) (v : value) es :
  l !! i = Some v → val v = inl es →
  ∃ es', validate_items val i0 l = inl es'.
Proof.
  revert i0 i. induction l as [|v' l IH]; intros i0 i Hl Hv; [done|].
  simpl. destruct i as [|i]; simpl in Hl.
  - injection Hl as ->. rewrite Hv. simpl. by eexists.
  - destruct (IH (S i0) i Hl Hv) as [es' ->].
    destruct (at_loc _ (val v')); by eexists.
Qed.

Lemma order_item_breaks_bound `{!LaxMode} (it : document) :
  breaks_bound it → ∃ es, OrderItem.validate it = inl es.
Proof.
  intros Hb.
  destruct (OrderItem.validate it) as [es|x] eqn:Hv; [by eexists|].
  apply order_item_validate_fields in Hv
    as (Hty & _ & _ & Hup & Hq & Hw & Hsub).
  destruct Hb as [(z & Hz & Hlt)|[(f & Hf & Hle)|[(f & Hf & Hle)|
                  [(f & Hf & Hle)|(s & Hs & Hnin)]]]].
  - unfold with_default in Hq. rewrite Hz in Hq. simpl in Hq.
    unfold ge_int in Hq; simpl in Hq.
    by rewrite (proj2 (Z.leb_gt 1 z) Hlt) in Hq.
  - unfold with_default in Hw. rewrite Hf in Hw. simpl in Hw.
    unfold ge_float in Hw; simpl in Hw. by rewrite Hle in Hw.
  - by rewrite (required_ge_float_below _ _ _ _ Hf Hle) in Hup.
  - by rewrite (required_ge_float_below _ _ _ _ Hf Hle) in Hsub.
  - apply required_literal_inr in Hty as [Hty Hin].
    rewrite Hs in Hty. injection Hty as ->. done.
Qed.

(** X3: an order one of whose lines breaks a bound of the item schema is
    refused as a whole: the framework raises its [RequestValidationError]
    before [create_order] runs, and nothing is written. *)
Theorem create_order_rejects_bad_line `{!LaxMode}
  (d : document) (lines : list value) (i : nat) (it : document) (w : World) :
  d !! "items" = Some (VList lines) →
  lines !! i = Some (VDict it) →
  breaks_bound it →
  ∃ es, POST_api_orders (VDict d) w = (Raise (RequestValidationError es), w).
Proof.
  intros Hd Hi [es Hes]%order_item_breaks_bound.
  unfold POST_api_orders, single_param, model.
  destruct (model_validate _ d) as [es'|x] eqn:Hv; simpl; [by eexists|].
  apply order_validate_fields in Hv as (_ & _ & _ & _ & _ & Hit & _).
  unfold required in Hit. rewrite Hd in Hit. simpl in Hit.
  destruct (validate_items_fail (model OrderItem.validate) lines 0 i
              (VDict it) es Hi Hes) as [es' Hes'].
  by rewrite Hes' in Hit.
Qed.

Lemma create_order_rejects_bad_line_witness :
  ∃ es, @POST_api_orders strict
          (VDict (<["items" :=
                      VList [VDict {[ "type" := VStr "grocery";
                                      "item_id" := VStr "abc";
                                      "title" := VStr "Milk";
                                      "unit_price" := VFloat 3.5;
                                      "quantity" := VInt 0;
                                      "subtotal" := VFloat 0 ]}]]>
                    (order_body None "Cash on Delivery")))
          one_order
        = (Raise (RequestValidationError es), one_order).
Proof.
  apply (@create_order_rejects_bad_line strict _
           [VDict {[ "type" := VStr "grocery"; "item_id" := VStr "abc";
                     "title" := VStr "Milk"; "unit_price" := VFloat 3.5;
                     "quantity" := VInt 0; "subtotal" := VFloat 0 ]}]
           0%nat
           {[ "type" := VStr "grocery"; "item_id" := VStr "abc";
              "title" := VStr "Milk"; "unit_price" := VFloat 3.5;
              "quantity" := VInt 0; "subtotal" := VFloat 0 ]}).
  - vm_compute. exact eq_refl.
  - exact eq_refl.
  - left. exists 0%Z. split; [vm_compute; exact eq_refl | lia].
Defined.

Lemma required_delete_ne {A} name k (val : validator A) (d : document) :
  name ≠ k → required name val (delete k d) = required name val d.
Proof. intros Hne. unfold required. by rewrite lookup_delete_ne. Qed.

Lemma with_default_delete_ne {A} name k dflt (val : validator A)
  (d : document) :
  name ≠ k →
  with_default name dflt val (delete k d) = with_default name dflt val d.
Proof. intros Hne. unfold with_default. by rewrite lookup_delete_ne. Qed.

Lemma with_default_delete {A} name dflt (val : validator A) (d : document) :
  with_default name dflt val (delete name d) = inr dflt.
Proof. unfold with_default. by rewrite lookup_delete_eq. Qed.

(** X4: the order schema asks nothing of the number of lines: if a body
    is accepted, the same body with an empty item list is accepted too,
    as the same order without lines. *)
Theorem order_accepts_empty_items `{!LaxMode} (d : document) (x : Order.t) :
  Order.validate d = inr x →
  Order.validate (<["items" := VList []]> d)
  = inr {| Order.customer_name := Order.customer_name x;
           Order.phone := Order.phone x;
           Order.address := Order.address x;
           Order.payment_method := Order.payment_method x;
           Order.status := Order.status x;
           Order.items := [];
           Order.total := Order.total x |}.
Proof.
  intros (H1 & H2 & H3 & H4 & H5 & _ & H7)%order_validate_fields.
  unfold Order.validate.
  rewrite !(required_insert_ne "customer_name"), !(required_insert_ne "phone"),
    !(required_insert_ne "address"), !(required_insert_ne "payment_method"),
    !(required_insert_ne "total"), !with_default_insert_ne by done.
  rewrite H1, H2, H3, H4, H5, H7.
  unfold required. by rewrite lookup_insert_eq.
Qed.

Lemma order_accepts_empty_items_witness :
  @Order.validate strict
    (<["items" := VList []]> (order_body None "Cash on Delivery"))
  = inr {| Order.customer_name := "Ada";
           Order.phone := "555-0100";
           Order.address := "1 Main St";
           Order.payment_method := "Cash on Delivery";
           Order.status := "Pending";
           Order.items := [];
           Order.total := 7 |}.
Proof.
  apply (@order_accepts_empty_items strict
           (order_body None "Cash on Delivery")
           {| Order.customer_name := "Ada";
              Order.phone := "555-0100";
              Order.address := "1 Main St";
              Order.payment_method := "Cash on Delivery";
              Order.status := "Pending";
              Order.items :=
                [{| OrderItem.type := "grocery"; OrderItem.item_id := "abc";
                    OrderItem.title := "Milk"; OrderItem.unit_price := 3.5;
                    OrderItem.quantity := Some 2%Z;
                    OrderItem.weight_kg := None;
                    OrderItem.subtotal := 7 |}];
              Order.total := 7 |}).
  vm_compute. exact eq_refl.
Defined.

(** X5: the total of an order is taken from the body as it is: an
    accepted body stays accepted when its total is replaced by any other
    non-negative number, whatever its lines and their subtotals are, and
    that number is the order's total. *)
Theorem order_total_not_checked `{!LaxMode}
  (d : document) (x : Order.t) (f : float) :
  Order.validate d = inr x →
  PrimFloat.leb 0 f = true →
  Order.validate (<["total" := VFloat f]> d)
  = inr {| Order.customer_name := Order.customer_name x;
           Order.phone := Order.phone x;
           Order.address := Order.address x;
           Order.payment_method := Order.payment_method x;
           Order.status := Order.status x;
           Order.items := Order.items x;
           Order.total := f |}.
Proof.
  intros (H1 & H2 & H3 & H4 & H5 & H6 & _)%order_validate_fields Hf.
  unfold Order.validate.
  rewrite !(required_insert_ne "customer_name"), !(required_insert_ne "phone"),
    !(required_insert_ne "address"), !(required_insert_ne "payment_method"),
    !(required_insert_ne "items"), !with_default_insert_ne by done.
  rewrite H1, H2, H3, H4, H5, H6.
  unfold required, ge_float. rewrite lookup_insert_eq. simpl. by rewrite Hf.
Qed.

Lemma order_total_not_checked_witness :
  @Order.validate strict
    (<["total" := VFloat 1000]> (order_body None "Cash on Delivery"))
  = inr {| Order.customer_name := "Ada";
           Order.phone := "555-0100";
           Order.address := "1 Main St";
           Order.payment_method := "Cash on Delivery";
           Order.status := "Pending";
           Order.items :=
             [{| OrderItem.type := "grocery"; OrderItem.item_id := "abc";
                 OrderItem.title := "Milk"; OrderItem.unit_price := 3.5;
                 OrderItem.quantity := Some 2%Z;
                 OrderItem.weight_kg := None;
                 OrderItem.subtotal := 7 |}];
           Order.total := 1000 |}.
Proof.
  apply (@order_total_not_checked strict
           (order_body None "Cash on Delivery")
           {| Order.customer_name := "Ada";
              Order.phone := "555-0100";
              Order.address := "1 Main St";
              Order.payment_method := "Cash on Delivery";
              Order.status := "Pending";
              Order.items :=
                [{| OrderItem.type := "grocery"; OrderItem.item_id := "abc";
                    OrderItem.title := "Milk"; OrderItem.unit_price := 3.5;
                    OrderItem.quantity := Some 2%Z;
                    OrderItem.weight_kg := None;
                    OrderItem.subtotal := 7 |}];
              Order.total := 7 |} 1000%float).
  - vm_compute. exact eq_refl.
  - vm_compute. exact eq_refl.
Defined.

(** X6: a line of an order needs neither a quantity nor a weight, and may
    carry both: an accepted line stays accepted without the two fields,
    and with a quantity of at least one and a weight of at least 0.1 kg
    together, whatever its type is. *)
Theorem order_line_quantity_weight_free `{!LaxMode}
  (d : document) (x : OrderItem.t) (q : Z) (kg : float) :
  OrderItem.validate d = inr x →
  (1 <= q)%Z →
  PrimFloat.leb 0.1 kg = true →
  OrderItem.validate (delete "quantity" (delete "weight_kg" d))
  = inr {| OrderItem.type := OrderItem.type x;
           OrderItem.item_id := OrderItem.item_id x;
           OrderItem.title := OrderItem.title x;
           OrderItem.unit_price := OrderItem.unit_price x;
           OrderItem.quantity := None;
           OrderItem.weight_kg := None;
           OrderItem.subtotal := OrderItem.subtotal x |} ∧
  OrderItem.validate (<["quantity" := VInt q]> (<["weight_kg" := VFloat kg]> d))
  = inr {| OrderItem.type := OrderItem.type x;
           OrderItem.item_id := OrderItem.item_id x;
           OrderItem.title := OrderItem.title x;
           OrderItem.unit_price := OrderItem.unit_price x;
           OrderItem.quantity := Some q;
           OrderItem.weight_kg := Some kg;
           OrderItem.subtotal := OrderItem.subtotal x |}.
Proof.
  intros (H1 & H2 & H3 & H4 & _ & _ & H7)%order_item_validate_fields Hq Hkg.
  split; unfold OrderItem.validate.
  - rewrite !required_delete_ne by done.
    rewrite (with_default_delete "quantity").
    rewrite (with_default_delete_ne "weight_kg" "quantity") by done.
    rewrite (with_default_delete "weight_kg").
    by rewrite H1, H2, H3, H4, H7.
  - rewrite !required_insert_ne by done.
    rewrite H1, H2, H3, H4, H7.
    unfold with_default, ge_int, ge_float.
    rewrite lookup_insert_eq, lookup_insert_ne, lookup_insert_eq by done.
    simpl. by rewrite (proj2 (Z.leb_le 1 q) Hq), Hkg.
Qed.

Lemma order_line_quantity_weight_free_witness :
  @OrderItem.validate strict
    (delete "quantity"
       (delete "weight_kg"
          {[ "type" := VStr "grocery"; "item_id" := VStr "abc";
             "title" := VStr "Milk"; "unit_price" := VFloat 3.5;
             "quantity" := VInt 2; "subtotal" := VFloat 7 ]}))
  = inr {| OrderItem.type := "grocery"; OrderItem.item_id := "abc";
           OrderItem.title := "Milk"; OrderItem.unit_price := 3.5;
           OrderItem.quantity := None; OrderItem.weight_kg := None;
           OrderItem.subtotal := 7 |} ∧
  @OrderItem.validate strict
    (<["quantity" := VInt 3]>
       (<["weight_kg" := VFloat 0.5]>
          {[ "type" := VStr "grocery"; "item_id" := VStr "abc";
             "title" := VStr "Milk"; "unit_price" := VFloat 3.5;
             "quantity" := VInt 2; "subtotal" := VFloat 7 ]}))
  = inr {| OrderItem.type := "grocery"; OrderItem.item_id := "abc";
           OrderItem.title := "Milk"; OrderItem.unit_price := 3.5;
           OrderItem.quantity := Some 3%Z; OrderItem.weight_kg := Some 0.5%float;
           OrderItem.subtotal := 7 |}.
Proof.
  apply (@order_line_quantity_weight_free strict
           {[ "type" := VStr "grocery"; "item_id" := VStr "abc";
              "title" := VStr "Milk"; "unit_price" := VFloat 3.5;
              "quantity" := VInt 2; "subtotal" := VFloat 7 ]}
           {| OrderItem.type := "grocery"; OrderItem.item_id := "abc";
              OrderItem.title := "Milk"; OrderItem.unit_price := 3.5;
              OrderItem.quantity := Some 2%Z; OrderItem.weight_kg := None;
              OrderItem.subtotal := 7 |} 3%Z 0.5%float).
  - vm_compute. exact eq_refl.
  - lia.
  - vm_compute. exact eq_refl.
Defined.


(** ** The answers of the status endpoint *)

(** X8: the status endpoint has five answers, decided in this order: 401
    for a wrong password, 400 "Invalid status" for a label outside the
    four, 500 when no store is connected, 400 "Invalid order id" for an
    id that is malformed or matches no order, and [{"ok": True}]
    otherwise.  The 404 "Order not found" is not among them. *)
Theorem update_order_status_answers
  (order_id : string) (body : UpdateStatusRequest.t) (w : World) :
  let r := (update_order_status order_id body w).1 in
  (UpdateStatusRequest.password body ≠ configured_secret w ∧
   r = Raise (HTTPException 401 "Invalid admin password")) ∨
  (UpdateStatusRequest.password body = configured_secret w ∧
   (UpdateStatusRequest.status body ∉ labels) ∧
   r = Raise (HTTPException 400 "Invalid status")) ∨
  (UpdateStatusRequest.password body = configured_secret w ∧
   UpdateStatusRequest.status body ∈ labels ∧
   ((db w = None ∧ r = Raise (HTTPException 500 "Database not available")) ∨
    (is_Some (db w) ∧
     (r = Raise (HTTPException 400 "Invalid order id") ∨
      r = Ok {[ "ok" := VBool true ]})))).
Proof.
  simpl.
  destruct (decide (UpdateStatusRequest.password body = configured_secret w))
    as [Hpw|Hpw]; [|left; by rewrite update_order_status_unauthorized].
  right.
  destruct (decide (UpdateStatusRequest.status body ∈ labels)) as [Hst|Hst];
    [|left; by rewrite update_order_status_bad_label].
  right. split_and!; [done..|].
  rewrite update_order_status_authorized by done.
  destruct (db w) as [D|]; [right|left; done].
  split; [done|].
  destruct (oid_of_string order_id) as [oid|]; [|by left].
  destruct (update_first _ _ _); [by right|by left].
Qed.

Lemma update_first_Forall2 (R : document → document → Prop)
  (p : document → bool) (f : document → document) (docs docs' : list document) :
  (∀ d, R d d) → (∀ d, R d (f d)) →
  update_first p f docs = Some docs' → Forall2 R docs docs'.
Proof.
  intros Hrefl Hf. revert docs'.
  induction docs as [|d docs IH]; intros docs'; simpl; [done|].
  destruct (p d).
  - intros [= <-]. constructor; [done|]. by apply Forall_Forall2_diag, Forall_true.
  - destruct (update_first p f docs) as [l|]; [|done].
    intros [= <-]. constructor; [done|]. by apply IH.
Qed.

(** X9: whatever the status endpoint answers, it adds and removes no
    order, changes in no order a field other than status and updated_at,
    and leaves the other collections and the environment as they were. *)
Theorem update_order_status_only_status
  (order_id : string) (body : UpdateStatusRequest.t) (w : World) :
  let w' := (update_order_status order_id body w).2 in
  environ w' = environ w ∧
  (∀ name, name ≠ "order" → stored name w' = stored name w) ∧
  Forall2 (λ d d' : document,
             ∀ k, k ≠ "status" → k ≠ "updated_at" → d' !! k = d !! k)
    (orders w) (orders w').
Proof.
  simpl. split_and!.
  - destruct (decide (UpdateStatusRequest.password body = configured_secret w))
      as [Hpw|Hpw]; [|by rewrite update_order_status_unauthorized].
    destruct (decide (UpdateStatusRequest.status body ∈ labels)) as [Hst|Hst];
      [|by rewrite update_order_status_bad_label].
    rewrite update_order_status_authorized by done.
    destruct (db w) as [D|] eqn:HD; [|done].
    destruct (oid_of_string order_id) as [oid|]; [|done].
    destruct (update_first _ _ _) as [docs'|]; [|done].
    simpl. unfold set_collection. by rewrite HD.
  - intros name Hne. by apply update_order_status_other.
  - assert (Hsame : Forall2 (λ d d' : document,
                               ∀ k, k ≠ "status" → k ≠ "updated_at" →
                                    d' !! k = d !! k) (orders w) (orders w))
      by (by apply Forall_Forall2_diag, Forall_true).
    destruct (decide (UpdateStatusRequest.password body = configured_secret w))
      as [Hpw|Hpw]; [|by rewrite update_order_status_unauthorized].
    destruct (decide (UpdateStatusRequest.status body ∈ labels)) as [Hst|Hst];
      [|by rewrite update_order_status_bad_label].
    rewrite update_order_status_authorized by done.
    destruct (db w) as [D|] eqn:HD; [|done].
    destruct (oid_of_string order_id) as [oid|]; [|done].
    destruct (update_first _ _ _) as [docs'|] eqn:Hup; [|done].
    simpl. unfold orders, set_collection. rewrite HD, stored_insert.
    rewrite decide_True by done. unfold stored. rewrite HD. simpl.
    eapply update_first_Forall2; [| |exact Hup]; [done|].
    intros d k Hk1 Hk2. rewrite set_fields_status_lookup.
    by rewrite !decide_False.
Qed.

Lemma update_first_again (p : document → bool) (f g : document → document)
  (docs docs1 : list document) :
  (∀ d, p (f d) = p d) → (∀ d, g (f d) = g d) →
  update_first p f docs = Some docs1 →
  update_first p g docs1 = update_first p g docs.
Proof.
  intros Hp Hg. revert docs1.
  induction docs as [|d docs IH]; intros docs1; simpl; [done|].
  destruct (p d) eqn:Hd.
  - intros [= <-]. simpl. by rewrite Hp, Hd, Hg.
  - destruct (update_first p f docs) as [l|]; [|done].
    intros [= <-]. simpl. by rewrite Hd, (IH l).
Qed.

Lemma update_first_none_any (p : document → bool) (f g : document → document)
  (docs : list document) :
  update_first p f docs = None → update_first p g docs = None.
Proof.
  induction docs as [|d docs IH]; simpl; [done|].
  destruct (p d); [done|].
  destruct (update_first p f docs); [done|]. intros _. by rewrite IH.
Qed.

Lemma has_id_set_fields oid s (d : document) :
  has_id oid (set_fields [("status", VStr s); ("updated_at", VNone)] d)
  = has_id oid d.
Proof.
  unfold has_id. rewrite set_fields_status_lookup.
  by rewrite !decide_False.
Qed.

Lemma set_fields_twice s1 s2 (d : document) :
  set_fields [("status", VStr s2); ("updated_at", VNone)]
    (set_fields [("status", VStr s1); ("updated_at", VNone)] d)
  = set_fields [("status", VStr s2); ("updated_at", VNone)] d.
Proof.
  apply map_eq; intros k. rewrite !set_fields_status_lookup.
  by repeat case_decide.
Qed.

(** X10: the status endpoint keeps no trace of the status it replaces:
    once one update of an order has gone through, a second accepted
    update of the same order answers and leaves the store exactly as it
    would have without the first. *)
Theorem update_order_status_last_wins
  (order_id : string) (first second : UpdateStatusRequest.t)
  (w w1 : World) (r1 : document) :
  update_order_status order_id first w = (Ok r1, w1) →
  UpdateStatusRequest.password second = configured_secret w →
  UpdateStatusRequest.status second ∈ labels →
  update_order_status order_id second w1
  = update_order_status order_id second w.
Proof.
  intros H1 Hpw2 Hst2.
  destruct (decide (UpdateStatusRequest.password first = configured_secret w))
    as [Hpw1|Hpw1];
    [|by rewrite update_order_status_unauthorized in H1].
  destruct (decide (UpdateStatusRequest.status first ∈ labels)) as [Hst1|Hst1];
    [|by rewrite update_order_status_bad_label in H1].
  rewrite update_order_status_authorized in H1 by done.
  destruct (db w) as [D|] eqn:HD; [|done].
  destruct (oid_of_string order_id) as [oid|] eqn:Hoid; [|done].
  destruct (update_first _ _ (collection "order" D)) as [docs1|] eqn:Hup;
    [|done].
  injection H1 as _ <-.
  assert (Hw1 : set_collection "order" docs1 w
                = {| environ := environ w;
                     db := Some {| collections :=
                                     <["order" := docs1]> (collections D);
                                   next_oid := next_oid D |} |})
    by (unfold set_collection; by rewrite HD).
  assert (Hsec : configured_secret (set_collection "order" docs1 w)
                 = configured_secret w) by (by rewrite Hw1).
  rewrite (update_order_status_authorized _ _ w) by done.
  rewrite update_order_status_authorized by (rewrite ?Hsec; done).
  rewrite Hw1, HD, Hoid. simpl.
  unfold collection at 1. simpl. rewrite lookup_insert_eq. simpl.
  rewrite (update_first_again _ _ _ _ _
             (has_id_set_fields oid (UpdateStatusRequest.status first))
             (set_fields_twice (UpdateStatusRequest.status first)
                (UpdateStatusRequest.status second)) Hup).
  destruct (update_first (has_id oid)
              (set_fields [("status", VStr (UpdateStatusRequest.status second));
                           ("updated_at", VNone)])
              (collection "order" D)) as [docs2|] eqn:Hup2.
  - unfold set_collection. rewrite HD. simpl.
    by rewrite insert_insert_eq.
  - apply (update_first_none_any _ _
             (set_fields [("status", VStr (UpdateStatusRequest.status first));
                          ("updated_at", VNone)])) in Hup2.
    congruence.
Qed.

Lemma update_order_status_last_wins_witness :
  update_order_status "000000000000000000000000"
    (sample_request "admin123" "Confirmed")
    (update_order_status "000000000000000000000000"
       (sample_request "admin123" "Delivered") one_order).2
  = update_order_status "000000000000000000000000"
      (sample_request "admin123" "Confirmed") one_order.
Proof.
  apply (update_order_status_last_wins
           "000000000000000000000000" (sample_request "admin123" "Delivered")
           (sample_request "admin123" "Confirmed") one_order _
           {[ "ok" := VBool true ]}).
  - vm_compute. exact eq_refl.
  - vm_compute. exact eq_refl.
  - apply (bool_decide_unpack _). vm_compute. exact I.
Defined.

(** ** Listing a catalog with a document that lacks a defaulted field *)

(** X11: the default of [available] does not help a stored document that
    has no such field, or has it as null: the list endpoints pass what
    [d.get] gives, so the model class is handed [None] for a [bool] field
    and the whole listing raises, for both kinds. *)
Theorem public_list_fails_without_available `{!LaxMode}
  (w : World) (D : Database) (d : document) :
  db w = Some D →
  dict_get d "available" = VNone →
  (d ∈ collection "butcheritem" D →
   ∃ es, GET_api_butcher w = (Raise (ValidationError es), w)) ∧
  (d ∈ collection "groceryitem" D →
   ∃ es, GET_api_grocery w = (Raise (ValidationError es), w)).
Proof.
  intros HD Hav. split; intros Hin.
  - destruct (for_each_new_raise (A := ButcherItem.t)
                (λ d, project d ["title"; "description"; "price_per_kg";
                                 "available"; "image"])
                (collection "butcheritem" D) w) as [es Hes].
    { apply Exists_exists. exists d. split; [done|]. simpl.
      destruct (ButcherItem.validate _) as [es|x] eqn:Hv; [by eexists|].
      apply butcher_validate_inr in Hv as (_ & _ & _ & Ha & _).
      rewrite with_default_project in Ha by field_in.
      by rewrite Hav in Ha. }
    exists es.
    unfold GET_api_butcher, list_butcher_items, bind at 1, bind at 1.
    by rewrite (get_documents_ok _ _ _ HD), Hes.
  - destruct (for_each_new_raise (A := GroceryItem.t)
                (λ d, project d ["title"; "description"; "price";
                                 "available"; "image"])
                (collection "groceryitem" D) w) as [es Hes].
    { apply Exists_exists. exists d. split; [done|]. simpl.
      destruct (GroceryItem.validate _) as [es|x] eqn:Hv; [by eexists|].
      apply grocery_validate_inr in Hv as (_ & _ & _ & Ha & _).
      rewrite with_default_project in Ha by field_in.
      by rewrite Hav in Ha. }
    exists es.
    unfold GET_api_grocery, list_grocery_items, bind at 1, bind at 1.
    by rewrite (get_documents_ok _ _ _ HD), Hes.
Qed.

Lemma public_list_fails_without_available_witness :
  ∃ es, @GET_api_grocery strict
          (catalog [ribeye] [milk; {[ "title" := VStr "Eggs";
                                      "price" := VFloat 2.5 ]}])
        = (Raise (ValidationError es),
           catalog [ribeye] [milk; {[ "title" := VStr "Eggs";
                                      "price" := VFloat 2.5 ]}]).
Proof.
  refine (proj2 (@public_list_fails_without_available strict
                   (catalog [ribeye] [milk; {[ "title" := VStr "Eggs";
                                               "price" := VFloat 2.5 ]}])
                   (catalog_db [ribeye] [milk; {[ "title" := VStr "Eggs";
                                                  "price" := VFloat 2.5 ]}])
                   {[ "title" := VStr "Eggs"; "price" := VFloat 2.5 ]}
                   eq_refl _) _).
  - vm_compute. exact eq_refl.
  - apply list_elem_of_further, list_elem_of_here.
Defined.

(** ** The raw view of a document *)

Lemma isoformat_field_lookup `{!Builtins} (doc : document) (k j : string) :
  isoformat_field doc k !! j =
  if decide (j = k)
  then (λ v, from_option VStr v (py_isoformat v)) <$> doc !! k
  else doc !! j.
Proof.
  unfold isoformat_field. case_decide as Hj; [subst j|].
  - destruct (doc !! k) as [v|] eqn:Hk; simpl; [|done].
    destruct (py_isoformat v); simpl; [by rewrite lookup_insert_eq|done].
  - destruct (doc !! k) as [v|]; [|done].
    destruct (py_isoformat v); [|done]. by rewrite lookup_insert_ne.
Qed.

Lemma serialize_doc_lookup `{!Builtins} (doc : document) (k : string) :
  dom doc ≠ ∅ →
  serialize_doc doc !! k =
  if decide (k = "_id")
  then Some (match doc !! "_id" with
             | Some v => VStr (py_str v)
             | None => VNone
             end)
  else if decide (k = "created_at" ∨ k = "updated_at")
       then (λ v, from_option VStr v (py_isoformat v)) <$> doc !! k
       else doc !! k.
Proof.
  intros Hne. unfold serialize_doc. rewrite decide_False by done.
  cbn [foldl]. rewrite !isoformat_field_lookup.
  repeat case_decide; subst; simplify_map_eq; try done; naive_solver.
Qed.

(** X12: [serialize_doc] returns an empty document as it is, without an
    id.  To any other document it gives an ["_id"] field, the text of the
    stored id, or [None] when the document has none; it rewrites
    created_at and updated_at only where the value has [isoformat]; and
    it adds, drops and changes no other field. *)
Theorem serialize_doc_fields `{!Builtins} (doc : document) :
  (dom doc = ∅ → serialize_doc doc = doc) ∧
  (dom doc ≠ ∅ →
   dom (serialize_doc doc) = {["_id"]} ∪ dom doc ∧
   (∀ oid, doc !! "_id" = Some (VObjectId oid) →
           serialize_doc doc !! "_id" = Some (VStr (str_of_oid oid))) ∧
   (doc !! "_id" = None → serialize_doc doc !! "_id" = Some VNone) ∧
   (∀ k v, k = "created_at" ∨ k = "updated_at" → doc !! k = Some v →
           serialize_doc doc !! k
           = Some (from_option VStr v (py_isoformat v))) ∧
   (∀ k, k ≠ "_id" → k ≠ "created_at" → k ≠ "updated_at" →
         serialize_doc doc !! k = doc !! k)).
Proof.
  split.
  - intros He. unfold serialize_doc. by rewrite decide_True.
  - intros Hne. split_and!.
    + apply set_eq; intros k.
      rewrite elem_of_union, elem_of_singleton, !elem_of_dom.
      rewrite serialize_doc_lookup by done.
      destruct (decide (k = "_id")) as [->|Hk]; [by split; eauto|].
      destruct (decide (k = "created_at" ∨ k = "updated_at")) as [Hk'|Hk'].
      * rewrite fmap_is_Some. naive_solver.
      * naive_solver.
    + intros oid Hid. rewrite serialize_doc_lookup by done.
      rewrite decide_True by done. by rewrite Hid.
    + intros Hid. rewrite serialize_doc_lookup by done.
      rewrite decide_True by done. by rewrite Hid.
    + intros k v Hk Hv. rewrite serialize_doc_lookup by done.
      rewrite decide_False by (by destruct Hk as [-> | ->]).
      rewrite decide_True by done. by rewrite Hv.
    + intros k H1 H2 H3. rewrite serialize_doc_lookup by done.
      rewrite !decide_False; [done|naive_solver|done].
Qed.

(** ** Listing the orders *)

Lemma list_orders_ok `{!Builtins} (pw : string) (w : World) (D : Database) :
  pw = configured_secret w → db w = Some D →
  list_orders pw w = (Ok (serialize_doc <$> collection "order" D), w).
Proof.
  intros Hpw HD. unfold list_orders, bind.
  rewrite verify_admin_eq, decide_True by done.
  by rewrite (get_documents_ok _ _ _ HD).
Qed.

(** X13: the order listing checks the admin password before it reads
    the store: with a password other than the configured secret it raises
    the 401 error, returns no order and leaves the state as it was. *)
Theorem list_orders_requires_admin `{!Builtins} (pw : string) (w : World) :
  pw ≠ configured_secret w →
  list_orders pw w = (Raise (HTTPException 401 "Invalid admin password"), w).
Proof.
  intros Hpw. unfold list_orders, bind.
  by rewrite verify_admin_eq, decide_False.
Qed.

Lemma list_orders_requires_admin_witness :
  @list_orders plain_builtins "guess" one_order
  = (Raise (HTTPException 401 "Invalid admin password"), one_order).
Proof.
  apply (@list_orders_requires_admin plain_builtins "guess" one_order).
  apply (bool_decide_unpack _). vm_compute. exact I.
Defined.

Lemma has_id_true oid (d : document) :
  has_id oid d = true → d !! "_id" = Some (VObjectId oid).
Proof.
  unfold has_id. destruct (d !! "_id") as [[| | | | |o| |]|]; try done.
  by intros ->%bool_decide_eq_true.
Qed.

(** X14: a status update that goes through is what the order listing
    shows next: the updated order is listed at its place with the new
    status and the text of its id, and the orders around it are listed as
    their stored documents are. *)
Theorem status_update_shows_in_list_orders `{!Builtins}
  (order_id : string) (body : UpdateStatusRequest.t) (w : World)
  (D : Database) (oid : list N) (pre post : list document) (d : document) :
  UpdateStatusRequest.password body = configured_secret w →
  UpdateStatusRequest.status body ∈ labels →
  db w = Some D →
  oid_of_string order_id = Some oid →
  collection "order" D = pre ++ d :: post →
  Forall (λ x, has_id oid x = false) pre →
  has_id oid d = true →
  ∃ r : document,
    list_orders (UpdateStatusRequest.password body)
      (update_order_status order_id body w).2
    = (Ok ((serialize_doc <$> pre) ++ r :: (serialize_doc <$> post)),
       (update_order_status order_id body w).2) ∧
    r !! "status" = Some (VStr (UpdateStatusRequest.status body)) ∧
    r !! "_id" = Some (VStr (str_of_oid oid)).
Proof.
  intros Hpw Hst HD Hoid Hcoll Hpre Hd.
  rewrite update_order_status_authorized by done.
  rewrite HD, Hoid, Hcoll, (update_first_app _ _ _ _ _ Hpre Hd).
  cbn [fst snd]. unfold set_collection. rewrite HD.
  set (d' := set_fields
               [("status", VStr (UpdateStatusRequest.status body));
                ("updated_at", VNone)] d).
  assert (Hne : dom d' ≠ ∅).
  { intros He. assert (Hin : "status" ∈ dom d'); [|by rewrite He in Hin].
    apply elem_of_dom. unfold d'. rewrite set_fields_status_lookup.
    by rewrite decide_False, decide_True. }
  exists (serialize_doc d'). split_and!.
  - erewrite list_orders_ok; [|done|reflexivity].
    unfold collection; simpl. rewrite lookup_insert_eq. simpl.
    by rewrite fmap_app, fmap_cons.
  - rewrite serialize_doc_lookup by done.
    rewrite !decide_False; [|naive_solver|done].
    unfold d'. rewrite set_fields_status_lookup.
    by rewrite decide_False, decide_True.
  - rewrite serialize_doc_lookup by done. rewrite decide_True by done.
    unfold d'. rewrite set_fields_status_lookup.
    rewrite !decide_False by done.
    by rewrite (has_id_true _ _ Hd).
Qed.

Lemma status_update_shows_in_list_orders_witness :
  ∃ r : document,
    @list_orders plain_builtins "admin123"
      (update_order_status "000000000000000000000000"
         (sample_request "admin123" "Delivered") one_order).2
    = (Ok ((@serialize_doc plain_builtins <$> []) ++
           r :: (@serialize_doc plain_builtins <$> [])),
       (update_order_status "000000000000000000000000"
          (sample_request "admin123" "Delivered") one_order).2) ∧
    r !! "status" = Some (VStr "Delivered") ∧
    r !! "_id" = Some (VStr (str_of_oid (replicate 12 0%N))).
Proof.
  apply (@status_update_shows_in_list_orders plain_builtins
           "000000000000000000000000" (sample_request "admin123" "Delivered")
           one_order one_order_db (replicate 12 0%N) [] [] one_order_doc).
  - vm_compute. exact eq_refl.
  - apply (bool_decide_unpack _). vm_compute. exact I.
  - vm_compute. exact eq_refl.
  - vm_compute. exact eq_refl.
  - vm_compute. exact eq_refl.
  - constructor.
  - vm_compute. exact eq_refl.
Defined.

(** ** The text of an id and the id it denotes *)

Lemma hex_digit_value (n : N) :
  (n < 16)%N →
  hex_value (hex_digit n) = Some n ∧ is_ascii_space (hex_digit n) = false.
Proof.
  intros Hn. destruct n as [|p]; [by split|].
  repeat (destruct p as [p|p|]; try (by split); try lia).
Qed.

Lemma fromhex_hex_byte (b : N) (s : string) :
  (b < 256)%N → fromhex (hex_byte b +:+ s) = cons b <$> fromhex s.
Proof.
  intros Hb.
  assert (Hhi : (b / 16 < 16)%N) by (apply N.Div0.div_lt_upper_bound; lia).
  assert (Hlo : (b mod 16 < 16)%N) by (apply N.mod_lt; lia).
  destruct (hex_digit_value _ Hhi) as [Hv1 Hs1].
  destruct (hex_digit_value _ Hlo) as [Hv2 _].
  unfold hex_byte.
  change (fromhex (String (hex_digit (b / 16))
                     (String (hex_digit (b mod 16)) s)) = cons b <$> fromhex s).
  cbn [fromhex]. rewrite Hs1, Hv1, Hv2.
  by rewrite <- (N.div_mod b 16) by lia.
Qed.

Lemma str_of_oid_cons (b : N) (oid : list N) :
  str_of_oid (b :: oid)
  = String (hex_digit (b / 16)) (String (hex_digit (b mod 16)) (str_of_oid oid)).
Proof. reflexivity. Qed.

Lemma length_str_of_oid (oid : list N) :
  String.length (str_of_oid oid) = (2 * length oid)%nat.
Proof.
  induction oid as [|b oid IH]; [done|].
  rewrite str_of_oid_cons. cbn [String.length length]. rewrite IH. lia.
Qed.

Lemma fromhex_str_of_oid (oid : list N) :
  Forall (λ b, (b < 256)%N) oid → fromhex (str_of_oid oid) = Some oid.
Proof.
  induction 1 as [|b oid Hb _ IH]; [done|].
  change (str_of_oid (b :: oid)) with (hex_byte b +:+ str_of_oid oid).
  by rewrite fromhex_hex_byte, IH.
Qed.

Lemma oid_of_string_str_of_oid (oid : list N) :
  length oid = 12%nat → Forall (λ b, (b < 256)%N) oid →
  oid_of_string (str_of_oid oid) = Some oid.
Proof.
  intros Hlen Hb. unfold oid_of_string.
  rewrite decide_True by (rewrite length_str_of_oid; lia).
  by apply fromhex_str_of_oid.
Qed.

Lemma update_first_some (p : document → bool) (f : document → document)
  (docs : list document) (d : document) :
  d ∈ docs → p d = true → ∃ docs', update_first p f docs = Some docs'.
Proof.
  induction 1 as [d docs|d d' docs _ IH]; intros Hp; simpl.
  - rewrite Hp. by eexists.
  - destruct (p d'); [by eexists|].
    destruct (IH Hp) as [docs' ->]. by eexists.
Qed.

(** X15: the id text under which the order listing shows a stored order
    is one the status endpoint takes: for an order whose id is twelve
    bytes, [serialize_doc] writes 24 hexadecimal digits that [ObjectId]
    reads back as the same id, and an accepted status update addressed to
    that text goes through. *)
Theorem listed_id_addresses_order `{!Builtins}
  (body : UpdateStatusRequest.t) (w : World) (D : Database)
  (d : document) (oid : list N) :
  db w = Some D →
  d ∈ collection "order" D →
  d !! "_id" = Some (VObjectId oid) →
  length oid = 12%nat →
  Forall (λ b, (b < 256)%N) oid →
  UpdateStatusRequest.password body = configured_secret w →
  UpdateStatusRequest.status body ∈ labels →
  serialize_doc d !! "_id" = Some (VStr (str_of_oid oid)) ∧
  oid_of_string (str_of_oid oid) = Some oid ∧
  (update_order_status (str_of_oid oid) body w).1 = Ok {[ "ok" := VBool true ]}.
Proof.
  intros HD Hin Hid Hlen Hb Hpw Hst. split_and!.
  - rewrite serialize_doc_lookup.
    + rewrite decide_True by done. by rewrite Hid.
    + intros He. assert (Hi : "_id" ∈ dom d) by (apply elem_of_dom; eauto).
      by rewrite He in Hi.
  - by apply oid_of_string_str_of_oid.
  - rewrite update_order_status_authorized by done.
    rewrite HD, oid_of_string_str_of_oid by done.
    destruct (update_first_some (has_id oid)
                (set_fields [("status", VStr (UpdateStatusRequest.status body));
                             ("updated_at", VNone)])
                (collection "order" D) d Hin) as [docs' ->]; [|done].
    unfold has_id. rewrite Hid. by apply bool_decide_eq_true.
Qed.

Lemma listed_id_addresses_order_witness :
  @serialize_doc plain_builtins one_order_doc !! "_id"
  = Some (VStr (str_of_oid (replicate 12 0%N))) ∧
  oid_of_string (str_of_oid (replicate 12 0%N)) = Some (replicate 12 0%N) ∧
  (update_order_status (str_of_oid (replicate 12 0%N))
     (sample_request "admin123" "Confirmed") one_order).1
  = Ok {[ "ok" := VBool true ]}.
Proof.
  apply (@listed_id_addresses_order plain_builtins
           (sample_request "admin123" "Confirmed") one_order one_order_db
           one_order_doc (replicate 12 0%N)).
  - vm_compute. exact eq_refl.
  - assert (Hc : collection "order" one_order_db = [one_order_doc])
      by (vm_compute; exact eq_refl).
    rewrite Hc. apply list_elem_of_here.
  - vm_compute. exact eq_refl.
  - exact eq_refl.
  - apply (bool_decide_unpack _). vm_compute. exact I.
  - vm_compute. exact eq_refl.
  - apply (bool_decide_unpack _). vm_compute. exact I.
Defined.

(** ** Required fields *)

Lemma required_none_inl {A} name (val : validator A) (d : document) :
  (∃ es, val VNone = inl es) →
  dict_get d name = VNone →
  ∃ es, required name val d = inl es.
Proof.
  intros [es Hval]. unfold dict_get, required.
  destruct (d !! name) as [v|]; simpl; [|by eexists].
  intros ->. rewrite Hval. by eexists.
Qed.

Lemma ge_float_none `{!LaxMode} bound :
  ∃ es, ge_float bound float_validator VNone = inl es.
Proof. by eexists. Qed.

Lemma str_validator_none `{!LaxMode} : ∃ es, str_validator VNone = inl es.
Proof. by eexists. Qed.

(** X16: a grocery item needs its title and its price, and a butcher item
    its price, as it needs its title: for a create request whose item
    lacks one of them, or has it as null, the framework raises its
    [RequestValidationError] before the endpoint runs, and nothing is
    written. *)
Theorem catalog_create_requires_fields `{!LaxMode}
  (d item : document) (w : World) :
  d !! "item" = Some (VDict item) →
  (dict_get item "price_per_kg" = VNone →
   ∃ es, POST_api_admin_butcher (VDict d) w
         = (Raise (RequestValidationError es), w)) ∧
  (dict_get item "title" = VNone ∨ dict_get item "price" = VNone →
   ∃ es, POST_api_admin_grocery (VDict d) w
         = (Raise (RequestValidationError es), w)).
Proof.
  intros Hitem. split.
  - intros Hn.
    assert (Hval : ∃ es, ButcherItem.validate item = inl es).
    { destruct (ButcherItem.validate item) as [es|x] eqn:Hv; [by eexists|].
      apply butcher_validate_inr in Hv as (_ & _ & Hp & _).
      destruct (required_none_inl "price_per_kg" _ item (ge_float_none 0) Hn)
        as [es Hes]. congruence. }
    destruct Hval as [es Hval].
    unfold POST_api_admin_butcher, embedded_param at 1. rewrite Hitem.
    simpl. rewrite Hval. simpl. by eexists.
  - intros Hn.
    assert (Hval : ∃ es, GroceryItem.validate item = inl es).
    { destruct (GroceryItem.validate item) as [es|x] eqn:Hv; [by eexists|].
      apply grocery_validate_inr in Hv as (Ht & _ & Hp & _).
      destruct Hn as [Hn|Hn].
      - destruct (required_none_inl "title" _ item str_validator_none Hn)
          as [es Hes]. congruence.
      - destruct (required_none_inl "price" _ item (ge_float_none 0) Hn)
          as [es Hes]. congruence. }
    destruct Hval as [es Hval].
    unfold POST_api_admin_grocery, embedded_param at 1. rewrite Hitem.
    simpl. rewrite Hval. simpl. by eexists.
Qed.

Lemma catalog_create_requires_fields_witness :
  ∃ es, @POST_api_admin_grocery strict
          (VDict {[ "item" := VDict {[ "title" := VStr "Milk" ]};
                    "auth" := VDict {[ "password" := VStr "admin123" ]} ]})
          empty_store
        = (Raise (RequestValidationError es), empty_store).
Proof.
  refine (proj2 (@catalog_create_requires_fields strict
                   {[ "item" := VDict {[ "title" := VStr "Milk" ]};
                      "auth" := VDict {[ "password" := VStr "admin123" ]} ]}
                   {[ "title" := VStr "Milk" ]} empty_store _) _).
  - vm_compute. exact eq_refl.
  - right. vm_compute. exact eq_refl.
Defined.

(** X17: an order needs its customer name, phone, address, payment
    method, item list and total: for a body that lacks one of them, or
    has it as null, the framework raises its [RequestValidationError]
    before [create_order] runs, and nothing is written. *)
Theorem create_order_requires_fields `{!LaxMode}
  (d : document) (k : string) (w : World) :
  k ∈ ["customer_name"; "phone"; "address"; "payment_method"; "items"; "total"] →
  dict_get d k = VNone →
  ∃ es, POST_api_orders (VDict d) w = (Raise (RequestValidationError es), w).
Proof.
  intros Hk Hn. unfold POST_api_orders, single_param, model.
  destruct (model_validate _ d) as [es|x] eqn:Hv; simpl; [by eexists|].
  apply order_validate_fields in Hv as (H1 & H2 & H3 & H4 & _ & H6 & H7).
  repeat (apply elem_of_cons in Hk as [->|Hk]);
    [ destruct (required_none_inl "customer_name" _ d str_validator_none Hn)
    | destruct (required_none_inl "phone" _ d str_validator_none Hn)
    | destruct (required_none_inl "address" _ d str_validator_none Hn)
    | destruct (required_none_inl "payment_method"
                  (literal ["Cash on Delivery"; "Card on Delivery"]) d
                  (ex_intro _ _ eq_refl) Hn)
    | destruct (required_none_inl "items"
                  (list_of (model OrderItem.validate)) d
                  (ex_intro _ _ eq_refl) Hn)
    | destruct (required_none_inl "total" _ d (ge_float_none 0) Hn)
    | by apply not_elem_of_nil in Hk ];
    congruence.
Qed.

Lemma create_order_requires_fields_witness :
  ∃ es, @POST_api_orders strict
          (VDict (delete "phone" (order_body None "Cash on Delivery")))
          one_order
        = (Raise (RequestValidationError es), one_order).
Proof.
  apply (@create_order_requires_fields strict
           (delete "phone" (order_body None "Cash on Delivery")) "phone").
  - apply list_elem_of_further, list_elem_of_here.
  - vm_compute. exact eq_refl.
Defined.
